(** * Server actions of the invoice dashboard

    A shallow embedding of the server-action module of the dashboard
    ([authenticate], [createInvoice], [updateInvoice], [deleteInvoice])
    together with the part of the schema library and of the host that the
    actions rely on.

    - JavaScript numbers are IEEE-754 binary64 values: Rocq's primitive
      [float], with its own multiplication and comparisons.
    - A statement evaluates to a completion record (normal, return or throw)
      and leaves a trace of the calls it made to imported functions.
    - Everything the module imports from the framework, the database client
      and the runtime is a field of [Host]; the theorems hold for every host. *)

From Stdlib Require Import PrimFloat FloatOps FloatAxioms SpecFloat.
From Stdlib Require Import Bool Ascii String List ZArith Lia.
Import ListNotations.

Open Scope string_scope.
Open Scope list_scope.

(** ** Values *)

(** A form entry is a string or an uploaded file ([FormDataEntryValue]). *)
Inductive FormDataEntryValue : Type :=
| EntryString (s : string)
| EntryFile (name : string).

(** [FormData] is an ordered list of entries; a key may occur several times. *)
Definition FormData : Type := list (string * FormDataEntryValue).

(** What a [catch] clause can receive: an [AuthError] (or a subclass of it)
    with its [type] field, or any other thrown value. *)
Inductive JsError : Type :=
| AuthError (type : string)
| OtherError (name : string).

(** A value interpolated into a tagged [sql] template. *)
Inductive SqlValue : Type :=
| SqlString (s : string)
| SqlNumber (n : float).

(** The object handed to [InvoiceSchema.safeParse]: [customerId] and
    [status] are looked up in [data] (and may be [undefined], here [None]),
    [amount] has already been through [Number]. *)
Record RawInvoice : Type := {
  raw_customerId : option FormDataEntryValue;
  raw_amount : float;
  raw_status : option FormDataEntryValue
}.

(** [validatedFields.data]. *)
Record InvoiceData : Type := {
  customerId : string;
  amount : float;
  status : string
}.

(** [error.flatten().fieldErrors]: a key is present only when the field has
    at least one issue. *)
Record FieldErrors : Type := {
  customerId_errors : option (list string);
  amount_errors : option (list string);
  status_errors : option (list string)
}.

(** The exported type [State]; both members are optional. *)
Record State : Type := {
  errors : option FieldErrors;
  message : option string
}.

(** ** Calls to imported functions *)

Inductive Event : Type :=
| EvSignIn (provider : string) (formData : FormData)
| EvSafeParse (input : RawInvoice)
| EvSql (strings : list string) (values : list SqlValue)
| EvRevalidatePath (path : string)
| EvRedirect (path : string)
| EvConsoleError (label : string) (error : JsError).

Definition Trace : Type := list Event.

(** The imported functions.  A call either returns ([None]) or throws
    ([Some e]); [StringToNumber] is the runtime's conversion behind
    [Number(string)], [toISOString_now] is [new Date().toISOString()]. *)
Record Host : Type := {
  StringToNumber : string -> float;
  toISOString_now : string;
  signIn : string -> FormData -> option JsError;
  sql : list string -> list SqlValue -> option JsError;
  revalidatePath : string -> option JsError;
  redirect : string -> option JsError
}.

(** ** Completions and statements *)

Inductive Completion (R : Type) : Type :=
| Normal
| Return (v : R)
| Throw (e : JsError).

Arguments Normal {R}.
Arguments Return {R} v.
Arguments Throw {R} e.

Definition Stmt (R : Type) : Type := (Trace * Completion R)%type.

Definition skip {R} : Stmt R := ([], Normal).
Definition return_ {R} (v : R) : Stmt R := ([], Return v).
Definition throw {R} (e : JsError) : Stmt R := ([], Throw e).

(** [s1; s2]: the second statement runs only after a normal completion. *)
Definition seq {R} (s1 s2 : Stmt R) : Stmt R :=
  match s1 with
  | (t1, Normal) => let (t2, c) := s2 in (t1 ++ t2, c)
  | abrupt => abrupt
  end.

(** [try { body } catch (error) { handler error }]. *)
Definition try_catch {R} (body : Stmt R) (handler : JsError -> Stmt R) : Stmt R :=
  match body with
  | (t1, Throw e) => let (t2, c) := handler e in (t1 ++ t2, c)
  | other => other
  end.

(** An expression statement that calls an imported function. *)
Definition call {R} (ev : Event) (outcome : option JsError) : Stmt R :=
  ([ev], match outcome with None => Normal | Some e => Throw e end).

Notation "s1 ;; s2" := (seq s1 s2) (at level 61, right associativity).

(** The promise an [async] function returns: fulfilled with the returned
    value ([None] is [undefined], when the body runs off its end) or rejected. *)
Inductive Outcome (R : Type) : Type :=
| Fulfilled (v : option R)
| Rejected (e : JsError).

Arguments Fulfilled {R} v.
Arguments Rejected {R} e.

Definition async {R} (body : Stmt R) : Trace * Outcome R :=
  match body with
  | (t, Normal) => (t, Fulfilled None)
  | (t, Return v) => (t, Fulfilled (Some v))
  | (t, Throw e) => (t, Rejected e)
  end.

(** ** Runtime helpers *)

(** [Object.fromEntries(formData.entries())] followed by a property read:
    a later entry with the same key overwrites an earlier one.  Only own
    properties are modelled: the actions read the keys customerId, amount
    and status, none of which the object inherits from its prototype. *)
Definition fromEntries (formData : FormData) (key : string)
  : option FormDataEntryValue :=
  fold_left
    (fun acc (entry : string * FormDataEntryValue) =>
       if String.eqb (fst entry) key then Some (snd entry) else acc)
    formData None.

(** [Number(v)]: [undefined] and a [File] (whose string form is not a
    numeric literal) give [NaN]; a string goes through [StringToNumber]. *)
Definition Number (h : Host) (v : option FormDataEntryValue) : float :=
  match v with
  | None => nan
  | Some (EntryString s) => StringToNumber h s
  | Some (EntryFile _) => nan
  end.

(** [s.split(sep)[0]]: the part of [s] before the first [sep]. *)
Fixpoint split_head (sep : ascii) (s : string) : string :=
  match s with
  | EmptyString => EmptyString
  | String c rest =>
      if Ascii.eqb c sep then EmptyString else String c (split_head sep rest)
  end.

(** ** The schema *)

Record ZodIssue : Type := {
  issue_path : string;
  issue_message : string
}.

Inductive ParseResult (A : Type) : Type :=
| Valid (value : A)
| Invalid (msg : string).

Arguments Valid {A} value.
Arguments Invalid {A} msg.

(** [z.string({ invalid_type_error })]. *)
Definition z_string (invalid_type_error : string)
  (v : option FormDataEntryValue) : ParseResult string :=
  match v with
  | Some (EntryString s) => Valid s
  | None => Invalid "Required"
  | Some (EntryFile _) => Invalid invalid_type_error
  end.

(** [z.coerce.number().gt(0, { message })] on a value that is already a
    number: [NaN] is not accepted as a number, and the check rejects
    [v <= 0]. *)
Definition z_coerce_number_gt0 (msg : string) (v : float) : ParseResult float :=
  if is_nan v then Invalid "Expected number, received nan"
  else if (v <=? 0)%float then Invalid msg
  else Valid v.

(** [z.enum(['pending', 'paid'], { invalid_type_error })]. *)
Definition z_enum_status (invalid_type_error : string)
  (v : option FormDataEntryValue) : ParseResult string :=
  match v with
  | None => Invalid "Required"
  | Some (EntryFile _) => Invalid invalid_type_error
  | Some (EntryString s) =>
      if String.eqb s "pending" || String.eqb s "paid" then Valid s
      else Invalid ("Invalid enum value. Expected 'pending' | 'paid', received '"
                      ++ s ++ "'")%string
  end.

Definition issues_of {A} (path : string) (r : ParseResult A) : list ZodIssue :=
  match r with
  | Valid _ => []
  | Invalid msg => [{| issue_path := path; issue_message := msg |}]
  end.

Inductive SafeParseResult : Type :=
| Success (data : InvoiceData)
| Failure (issues : list ZodIssue).

(** [InvoiceSchema = FormSchema.omit({ id: true, date: true })]: the three
    remaining fields are all checked, and every issue is reported. *)
Definition safeParse (input : RawInvoice) : SafeParseResult :=
  let c := z_string "Please select a customer." (raw_customerId input) in
  let a := z_coerce_number_gt0 "Please enter an amount greater than $0."
             (raw_amount input) in
  let s := z_enum_status "Please select an invoice status." (raw_status input) in
  match c, a, s with
  | Valid cid, Valid amt, Valid st =>
      Success {| customerId := cid; amount := amt; status := st |}
  | _, _, _ =>
      Failure (issues_of "customerId" c ++ issues_of "amount" a
                 ++ issues_of "status" s)
  end.

Definition messages_at (path : string) (issues : list ZodIssue)
  : option (list string) :=
  match filter (fun i => String.eqb (issue_path i) path) issues with
  | [] => None
  | found => Some (map issue_message found)
  end.

(** [error.flatten().fieldErrors]. *)
Definition flatten_fieldErrors (issues : list ZodIssue) : FieldErrors :=
  {| customerId_errors := messages_at "customerId" issues;
     amount_errors := messages_at "amount" issues;
     status_errors := messages_at "status" issues |}.

(** ** The actions *)

Definition newline : string := String (ascii_of_nat 10) EmptyString.

(** The literal parts of the three tagged templates, as the [sql] tag
    receives them: the text between the interpolated values. *)
Definition insert_strings : list string :=
  [ (newline ++ "      INSERT INTO invoices (customer_id, amount, status, date)"
       ++ newline ++ "      VALUES (")%string;
    ", "; ", "; ", ";
    (")" ++ newline ++ "    ")%string ].

Definition update_strings : list string :=
  [ (newline ++ "      UPDATE invoices"
       ++ newline ++ "      SET customer_id = ")%string;
    ", amount = "; ", status = ";
    (newline ++ "      WHERE id = ")%string;
    (newline ++ "    ")%string ].

Definition delete_strings : list string :=
  [ "DELETE FROM invoices WHERE id = "; EmptyString ].

Definition await_signIn {R} (h : Host) (provider : string) (formData : FormData)
  : Stmt R :=
  call (EvSignIn provider formData) (signIn h provider formData).

Definition await_sql {R} (h : Host) (strings : list string)
  (values : list SqlValue) : Stmt R :=
  call (EvSql strings values) (sql h strings values).

Definition call_revalidatePath {R} (h : Host) (path : string) : Stmt R :=
  call (EvRevalidatePath path) (revalidatePath h path).

Definition call_redirect {R} (h : Host) (path : string) : Stmt R :=
  call (EvRedirect path) (redirect h path).

Definition console_error {R} (label : string) (error : JsError) : Stmt R :=
  call (EvConsoleError label error) None.

Definition authenticate (h : Host) (prevState : option string)
  (formData : FormData) : Trace * Outcome string :=
  async
    (try_catch
       (await_signIn h "credentials" formData)
       (fun error =>
          match error with
          | AuthError type =>
              if String.eqb type "CredentialsSignin"
              then return_ "Invalid credentials. Please try again."
              else return_ "Something went wrong. Please try again later."
          | _ => throw error
          end)).

(** The object literal both form actions pass to [safeParse]. *)
Definition rawInvoice (h : Host) (formData : FormData) : RawInvoice :=
  let data := fromEntries formData in
  {| raw_customerId := data "customerId";
     raw_amount := Number h (data "amount");
     raw_status := data "status" |}.

Definition createInvoice (h : Host) (prevState : State) (formData : FormData)
  : Trace * Outcome State :=
  async
    (let input := rawInvoice h formData in
     call (EvSafeParse input) None ;;
     match safeParse input with
     | Failure issues =>
         return_ {| errors := Some (flatten_fieldErrors issues);
                    message := Some "Missing Fields. Failed to create Invoice." |}
     | Success data =>
         let amountInCents := (amount data * 100)%float in
         let date := split_head "T" (toISOString_now h) in
         try_catch
           (await_sql h insert_strings
              [SqlString (customerId data); SqlNumber amountInCents;
               SqlString (status data); SqlString date] ;;
            call_revalidatePath h "/dashboard/invoices" ;;
            call_redirect h "/dashboard/invoices")
           (fun error =>
              console_error "Create Invoice Error:" error ;;
              return_ {| errors := None;
                         message := Some "Database Error: Failed to create Invoice." |})
     end).

Definition updateInvoice (h : Host) (id : string) (formData : FormData)
  : Trace * Outcome State :=
  async
    (let input := rawInvoice h formData in
     call (EvSafeParse input) None ;;
     match safeParse input with
     | Failure issues =>
         return_ {| errors := Some (flatten_fieldErrors issues);
                    message := Some "Missing Fields. Failed to Update Invoice." |}
     | Success data =>
         let amountInCents := (amount data * 100)%float in
         try_catch
           (await_sql h update_strings
              [SqlString (customerId data); SqlNumber amountInCents;
               SqlString (status data); SqlString id] ;;
            call_revalidatePath h "/dashboard/invoices" ;;
            call_redirect h "/dashboard/invoices")
           (fun error =>
              console_error "Update Invoice Error:" error ;;
              return_ {| errors := None;
                         message := Some "Database Error: Failed to Update Invoice." |})
     end).

Definition deleteInvoice (h : Host) (id : string) : Trace * Outcome State :=
  async
    (try_catch
       (await_sql h delete_strings [SqlString id] ;;
        call_revalidatePath h "/dashboard/invoices" ;;
        return_ {| errors := None; message := Some "Deleted Invoice" |})
       (fun error =>
          console_error "Delete Invoice Error:" error ;;
          return_ {| errors := None;
                     message := Some "Database Error: Failed to Delete Invoice." |})).

(** ** Observations on a trace *)

Definition is_sql (ev : Event) : bool :=
  match ev with EvSql _ _ => true | _ => false end.

Definition is_safeParse (ev : Event) : bool :=
  match ev with EvSafeParse _ => true | _ => false end.

Definition is_revalidatePath (ev : Event) : bool :=
  match ev with EvRevalidatePath _ => true | _ => false end.

Definition is_redirect (ev : Event) : bool :=
  match ev with EvRedirect _ => true | _ => false end.

(** The statements sent to the database, in order: template and values. *)
Fixpoint sql_events (t : Trace) : list (list string * list SqlValue) :=
  match t with
  | [] => []
  | EvSql strings values :: rest => (strings, values) :: sql_events rest
  | _ :: rest => sql_events rest
  end.

Definition statement_texts (t : Trace) : list (list string) :=
  map fst (sql_events t).

(** Every statement in the trace comes after a schema validation. *)
Fixpoint sql_guarded_from (validated : bool) (t : Trace) : bool :=
  match t with
  | [] => true
  | EvSafeParse _ :: rest => sql_guarded_from true rest
  | EvSql _ _ :: rest => validated && sql_guarded_from validated rest
  | _ :: rest => sql_guarded_from validated rest
  end.

Definition sql_guarded (t : Trace) : bool := sql_guarded_from false t.

(** What the schema demands of amount and status, read off the raw input. *)
Definition status_in_enum (v : option FormDataEntryValue) : bool :=
  match v with
  | Some (EntryString s) => String.eqb s "pending" || String.eqb s "paid"
  | _ => false
  end.

Definition amount_and_status_ok (input : RawInvoice) : bool :=
  (0 <? raw_amount input)%float && status_in_enum (raw_status input).

(** ** The run of a form action after validation *)

(** The values interpolated into the INSERT and UPDATE statements. *)
Definition insert_values (h : Host) (d : InvoiceData) : list SqlValue :=
  [SqlString (customerId d); SqlNumber (amount d * 100)%float;
   SqlString (status d); SqlString (split_head "T" (toISOString_now h))].

Definition update_values (id : string) (d : InvoiceData) : list SqlValue :=
  [SqlString (customerId d); SqlNumber (amount d * 100)%float;
   SqlString (status d); SqlString id].

Definition database_error (msg : string) : option State :=
  Some {| errors := None; message := Some msg |}.

(** What follows the statement inside the [try] block of the form actions,
    by the outcome of the three calls. *)
Definition after_sql (h : Host) (label msg : string)
  (strings : list string) (values : list SqlValue) : Trace * Outcome State :=
  match sql h strings values with
  | Some e => ([EvConsoleError label e], Fulfilled (database_error msg))
  | None =>
      match revalidatePath h "/dashboard/invoices" with
      | Some e =>
          ([EvRevalidatePath "/dashboard/invoices"; EvConsoleError label e],
           Fulfilled (database_error msg))
      | None =>
          match redirect h "/dashboard/invoices" with
          | Some e =>
              ([EvRevalidatePath "/dashboard/invoices";
                EvRedirect "/dashboard/invoices"; EvConsoleError label e],
               Fulfilled (database_error msg))
          | None =>
              ([EvRevalidatePath "/dashboard/invoices";
                EvRedirect "/dashboard/invoices"], Fulfilled None)
          end
      end
  end.

(** ** The exported functions as one interface *)

Inductive Call : Type :=
| CallAuthenticate (prevState : option string) (formData : FormData)
| CallCreateInvoice (prevState : State) (formData : FormData)
| CallUpdateInvoice (id : string) (formData : FormData)
| CallDeleteInvoice (id : string).

Definition trace_of (h : Host) (c : Call) : Trace :=
  match c with
  | CallAuthenticate prevState formData => fst (authenticate h prevState formData)
  | CallCreateInvoice prevState formData => fst (createInvoice h prevState formData)
  | CallUpdateInvoice id formData => fst (updateInvoice h id formData)
  | CallDeleteInvoice id => fst (deleteInvoice h id)
  end.

(** The five operations the panel is described by. *)
Inductive Action : Type :=
| ActAuthenticate
| ActList
| ActCreate
| ActUpdate
| ActDelete.

Definition is_blank (c : ascii) : bool :=
  let n := nat_of_ascii c in
  (n =? 32)%nat || (n =? 9)%nat || (n =? 10)%nat || (n =? 13)%nat.

Fixpoint skip_blanks (s : string) : string :=
  match s with
  | EmptyString => EmptyString
  | String c rest => if is_blank c then skip_blanks rest else s
  end.

Fixpoint take_word (s : string) : string :=
  match s with
  | EmptyString => EmptyString
  | String c rest => if is_blank c then EmptyString else String c (take_word rest)
  end.

(** The SQL command a template opens with. *)
Definition statement_verb (strings : list string) : string :=
  take_word (skip_blanks (hd EmptyString strings)).

(** An event that carries out the operation: the credential check is the
    call to [signIn]; listing, creating, updating and deleting invoice
    records are SELECT, INSERT, UPDATE and DELETE statements. *)
Definition performs (a : Action) (ev : Event) : bool :=
  match a, ev with
  | ActAuthenticate, EvSignIn _ _ => true
  | ActList, EvSql strings _ => String.eqb (statement_verb strings) "SELECT"
  | ActCreate, EvSql strings _ => String.eqb (statement_verb strings) "INSERT"
  | ActUpdate, EvSql strings _ => String.eqb (statement_verb strings) "UPDATE"
  | ActDelete, EvSql strings _ => String.eqb (statement_verb strings) "DELETE"
  | _, _ => false
  end.

(** Some exported function, on some input, carries out the operation. *)
Definition provides (a : Action) : Prop :=
  exists (h : Host) (c : Call), existsb (performs a) (trace_of h c) = true.

(** The form action's trace opens with the validation of the object built
    from the form, no statement comes before a validation, and a statement
    is sent only when that validation succeeded. *)
Definition validates_before_sql (h : Host) (formData : FormData) (t : Trace)
  : Prop :=
  (exists rest, t = EvSafeParse (rawInvoice h formData) :: rest)
  /\ sql_guarded t = true
  /\ (sql_events t <> [] ->
      exists d, safeParse (rawInvoice h formData) = Success d).

(** ** Sample hosts *)

Fixpoint float_of_nat (n : nat) : float :=
  match n with
  | O => 0%float
  | S k => (float_of_nat k + 1)%float
  end.

Definition digit_value (c : ascii) : option float :=
  let n := nat_of_ascii c in
  if (48 <=? n)%nat && (n <=? 57)%nat
  then Some (float_of_nat (n - 48))
  else None.

Fixpoint digits_from (acc : float) (s : string) : float :=
  match s with
  | EmptyString => acc
  | String c rest =>
      match digit_value c with
      | Some d => digits_from (acc * 10 + d)%float rest
      | None => nan
      end
  end.

(** A stand-in for [StringToNumber] that reads plain decimal digits (and
    the empty string as 0), enough for the examples below. *)
Definition digits_to_number (s : string) : float := digits_from 0%float s.

(** A host in which every call succeeds and [redirect] returns. *)
Definition quiet_host : Host :=
  {| StringToNumber := digits_to_number;
     toISOString_now := "2024-05-17T09:30:00.000Z";
     signIn := fun _ _ => None;
     sql := fun _ _ => None;
     revalidatePath := fun _ => None;
     redirect := fun _ => None |}.

(** A host whose database client rejects every statement. *)
Definition db_down_host : Host :=
  {| StringToNumber := digits_to_number;
     toISOString_now := "2024-05-17T09:30:00.000Z";
     signIn := fun _ _ => None;
     sql := fun _ _ => Some (OtherError "ECONNREFUSED");
     revalidatePath := fun _ => None;
     redirect := fun _ => None |}.

(** A host whose [signIn] throws the given error. *)
Definition signIn_throws (e : JsError) : Host :=
  {| StringToNumber := digits_to_number;
     toISOString_now := "2024-05-17T09:30:00.000Z";
     signIn := fun _ _ => Some e;
     sql := fun _ _ => None;
     revalidatePath := fun _ => None;
     redirect := fun _ => None |}.

Definition sample_form : FormData :=
  [ ("customerId", EntryString "c-42");
    ("amount", EntryString "250");
    ("status", EntryString "paid") ].

Definition free_form : FormData :=
  [ ("customerId", EntryString "c-42");
    ("amount", EntryString "0");
    ("status", EntryString "paid") ].

Definition empty_State : State := {| errors := None; message := None |}.

(** ** Further observations and sample inputs *)

(** Whether the character occurs in the string. *)
Fixpoint has_char (c : ascii) (s : string) : bool :=
  match s with
  | EmptyString => false
  | String c' rest => Ascii.eqb c' c || has_char c rest
  end.

(** The names of the form entries the schema reads. *)
Definition schema_keys : list string := ["customerId"; "amount"; "status"].

(** A well-formed tagged-template call: one more text chunk than values. *)
Definition well_formed_statement (stmt : list string * list SqlValue) : Prop :=
  length (fst stmt) = S (length (snd stmt)).

Definition is_console_error (ev : Event) : bool :=
  match ev with EvConsoleError _ _ => true | _ => false end.

(** The errors entry a field's parse result leads to. *)
Definition messages_of {A} (r : ParseResult A) : option (list string) :=
  match r with
  | Valid _ => None
  | Invalid m => Some [m]
  end.

(** A host whose number conversion gives the same number for every string
    and whose calls all return. *)
Definition constant_number_host (n : float) : Host :=
  {| StringToNumber := fun _ => n;
     toISOString_now := "2024-05-17T09:30:00.000Z";
     signIn := fun _ _ => None;
     sql := fun _ _ => None;
     revalidatePath := fun _ => None;
     redirect := fun _ => None |}.

(** A host on which the statement and the invalidation succeed and
    [redirect] throws. *)
Definition redirect_throws_host : Host :=
  {| StringToNumber := digits_to_number;
     toISOString_now := "2024-05-17T09:30:00.000Z";
     signIn := fun _ _ => None;
     sql := fun _ _ => None;
     revalidatePath := fun _ => None;
     redirect := fun _ => Some (OtherError "NEXT_REDIRECT") |}.

(** A form without a status entry, and one whose customer is a file. *)
Definition form_without_status : FormData :=
  [ ("customerId", EntryString "c-42"); ("amount", EntryString "250") ].

Definition form_with_file : FormData :=
  [ ("customerId", EntryFile "photo.png");
    ("amount", EntryString "250");
    ("status", EntryString "paid") ].

(** ** Exact values of binary64 numbers *)







(** * Supporting lemmas *)

Ltac unfold_statements :=
  unfold await_signIn, await_sql, call_revalidatePath, call_redirect,
    console_error, call, try_catch, seq, async, return_, throw.


(** ** Facts about binary64 comparisons *)

Lemma Prim2SF_zero : Prim2SF 0%float = S754_zero false.
Proof. reflexivity. Qed.

Lemma SFcompare_finite_refl (s : bool) (m : positive) (e : Z) :
  SFcompare (S754_finite s m e) (S754_finite s m e) = Some Eq.
Proof.
  simpl. destruct s; rewrite Z.compare_refl, Pos.compare_cont_refl; reflexivity.
Qed.

(** A number passes the [NaN] test and the [<= 0] test exactly when it is
    strictly greater than 0. *)
Lemma gt0_iff (v : float) :
  (is_nan v = false /\ (v <=? 0)%float = false) <-> (0 <? v)%float = true.
Proof.
  unfold is_nan.
  rewrite FloatAxioms.eqb_spec, leb_spec, ltb_spec, Prim2SF_zero.
  unfold SFeqb, SFleb, SFltb.
  destruct (Prim2SF v) as [s | s | | s m e].
  - destruct s; simpl; intuition congruence.
  - destruct s; simpl; intuition congruence.
  - simpl; intuition congruence.
  - rewrite SFcompare_finite_refl. destruct s; simpl; intuition congruence.
Qed.

Lemma z_coerce_number_gt0_Valid (msg : string) (v a : float) :
  z_coerce_number_gt0 msg v = Valid a <-> (a = v /\ (0 <? v)%float = true).
Proof.
  unfold z_coerce_number_gt0. rewrite <- gt0_iff.
  destruct (is_nan v); [intuition congruence |].
  destruct (v <=? 0)%float; intuition congruence.
Qed.

Lemma z_enum_status_Valid (msg : string) (v : option FormDataEntryValue) (s : string) :
  z_enum_status msg v = Valid s <->
  (v = Some (EntryString s) /\ status_in_enum v = true).
Proof.
  unfold z_enum_status, status_in_enum.
  destruct v as [[x | f] |]; try (intuition congruence).
  destruct (String.eqb x "pending" || String.eqb x "paid"); intuition congruence.
Qed.

Lemma z_string_Valid (msg : string) (v : option FormDataEntryValue) (s : string) :
  z_string msg v = Valid s <-> v = Some (EntryString s).
Proof.
  unfold z_string. destruct v as [[x | f] |]; intuition congruence.
Qed.

(** [safeParse] succeeds exactly on a string customer, an amount above 0
    and a status of the enumeration, and returns those very values. *)
Lemma safeParse_Success (input : RawInvoice) (d : InvoiceData) :
  safeParse input = Success d <->
  (raw_customerId input = Some (EntryString (customerId d))
   /\ raw_amount input = amount d
   /\ raw_status input = Some (EntryString (status d))
   /\ amount_and_status_ok input = true).
Proof.
  unfold amount_and_status_ok. split.
  - unfold safeParse.
    destruct (z_string _ (raw_customerId input)) as [cid | mc] eqn:Hc;
      destruct (z_coerce_number_gt0 _ (raw_amount input)) as [amt | ma] eqn:Ha;
      destruct (z_enum_status _ (raw_status input)) as [st | ms] eqn:Hs;
      try discriminate.
    intros [= <-]. simpl.
    apply z_string_Valid in Hc. apply z_coerce_number_gt0_Valid in Ha.
    apply z_enum_status_Valid in Hs.
    destruct Ha as [-> Hgt], Hs as [Hst Hen].
    rewrite Hgt, Hen. auto.
  - intros (Hc & Ha & Hs & Hok).
    apply andb_true_iff in Hok. destruct Hok as [Hgt Hen].
    unfold safeParse.
    rewrite (proj2 (z_string_Valid _ _ _) Hc).
    rewrite (proj2 (z_coerce_number_gt0_Valid _ _ (amount d)) (conj (eq_sym Ha) Hgt)).
    rewrite (proj2 (z_enum_status_Valid _ _ _) (conj Hs Hen)).
    destruct d; reflexivity.
Qed.

Lemma amount_and_status_ok_spec (h : Host) (formData : FormData) :
  amount_and_status_ok (rawInvoice h formData) = true <->
  ((0 <? Number h (fromEntries formData "amount"))%float = true
   /\ (fromEntries formData "status" = Some (EntryString "pending")
       \/ fromEntries formData "status" = Some (EntryString "paid"))).
Proof.
  unfold amount_and_status_ok, rawInvoice, status_in_enum. simpl.
  rewrite andb_true_iff.
  destruct (fromEntries formData "status") as [[s | f] |].
  - rewrite orb_true_iff, !String.eqb_eq.
    intuition (subst; auto; congruence).
  - intuition (discriminate || congruence).
  - intuition (discriminate || congruence).
Qed.

Lemma safeParse_Failure (input : RawInvoice) :
  amount_and_status_ok input = false ->
  exists issues, safeParse input = Failure issues.
Proof.
  intros Hbad. destruct (safeParse input) as [d | issues] eqn:Hparse.
  - apply safeParse_Success in Hparse. destruct Hparse as (_ & _ & _ & Hok).
    congruence.
  - exists issues. reflexivity.
Qed.

(** ** The two branches of the form actions *)

Lemma createInvoice_Failure (h : Host) (prevState : State) (formData : FormData)
  (issues : list ZodIssue) :
  safeParse (rawInvoice h formData) = Failure issues ->
  createInvoice h prevState formData =
  ([EvSafeParse (rawInvoice h formData)],
   Fulfilled (Some {| errors := Some (flatten_fieldErrors issues);
                      message := Some "Missing Fields. Failed to create Invoice." |})).
Proof.
  intros Hparse. unfold createInvoice. cbv zeta. rewrite Hparse. reflexivity.
Qed.

Lemma updateInvoice_Failure (h : Host) (id : string) (formData : FormData)
  (issues : list ZodIssue) :
  safeParse (rawInvoice h formData) = Failure issues ->
  updateInvoice h id formData =
  ([EvSafeParse (rawInvoice h formData)],
   Fulfilled (Some {| errors := Some (flatten_fieldErrors issues);
                      message := Some "Missing Fields. Failed to Update Invoice." |})).
Proof.
  intros Hparse. unfold updateInvoice. cbv zeta. rewrite Hparse. reflexivity.
Qed.

Lemma createInvoice_Success (h : Host) (prevState : State) (formData : FormData)
  (d : InvoiceData) :
  safeParse (rawInvoice h formData) = Success d ->
  createInvoice h prevState formData =
  (EvSafeParse (rawInvoice h formData)
     :: EvSql insert_strings (insert_values h d)
     :: fst (after_sql h "Create Invoice Error:"
               "Database Error: Failed to create Invoice."
               insert_strings (insert_values h d)),
   snd (after_sql h "Create Invoice Error:"
          "Database Error: Failed to create Invoice."
          insert_strings (insert_values h d))).
Proof.
  intros Hparse. unfold createInvoice, after_sql, insert_values. cbv zeta.
  rewrite Hparse. unfold_statements.
  destruct (sql h _ _); [reflexivity |].
  destruct (revalidatePath h _); [reflexivity |].
  destruct (redirect h _); reflexivity.
Qed.

Lemma updateInvoice_Success (h : Host) (id : string) (formData : FormData)
  (d : InvoiceData) :
  safeParse (rawInvoice h formData) = Success d ->
  updateInvoice h id formData =
  (EvSafeParse (rawInvoice h formData)
     :: EvSql update_strings (update_values id d)
     :: fst (after_sql h "Update Invoice Error:"
               "Database Error: Failed to Update Invoice."
               update_strings (update_values id d)),
   snd (after_sql h "Update Invoice Error:"
          "Database Error: Failed to Update Invoice."
          update_strings (update_values id d))).
Proof.
  intros Hparse. unfold updateInvoice, after_sql, update_values. cbv zeta.
  rewrite Hparse. unfold_statements.
  destruct (sql h _ _); [reflexivity |].
  destruct (revalidatePath h _); [reflexivity |].
  destruct (redirect h _); reflexivity.
Qed.

Lemma deleteInvoice_run (h : Host) (id : string) :
  deleteInvoice h id =
  match sql h delete_strings [SqlString id] with
  | Some e =>
      ([EvSql delete_strings [SqlString id];
        EvConsoleError "Delete Invoice Error:" e],
       Fulfilled (database_error "Database Error: Failed to Delete Invoice."))
  | None =>
      match revalidatePath h "/dashboard/invoices" with
      | Some e =>
          ([EvSql delete_strings [SqlString id];
            EvRevalidatePath "/dashboard/invoices";
            EvConsoleError "Delete Invoice Error:" e],
           Fulfilled (database_error "Database Error: Failed to Delete Invoice."))
      | None =>
          ([EvSql delete_strings [SqlString id];
            EvRevalidatePath "/dashboard/invoices"],
           Fulfilled (Some {| errors := None; message := Some "Deleted Invoice" |}))
      end
  end.
Proof.
  unfold deleteInvoice. unfold_statements.
  destruct (sql h _ _); [reflexivity |].
  destruct (revalidatePath h _); reflexivity.
Qed.

(** The trace after the statement never holds another statement or a
    validation. *)
Lemma after_sql_events (h : Host) (label msg : string) (strings : list string)
  (values : list SqlValue) :
  sql_events (fst (after_sql h label msg strings values)) = []
  /\ (forall v, sql_guarded_from v (fst (after_sql h label msg strings values)) = true)
  /\ existsb is_safeParse (fst (after_sql h label msg strings values)) = false.
Proof.
  unfold after_sql.
  destruct (sql h _ _); [repeat split; reflexivity |].
  destruct (revalidatePath h _); [repeat split; reflexivity |].
  destruct (redirect h _); repeat split; reflexivity.
Qed.

(** The statements a form action sends: none when validation fails, one
    otherwise. *)
Lemma createInvoice_sql_events (h : Host) (prevState : State) (formData : FormData) :
  sql_events (fst (createInvoice h prevState formData))
  = match safeParse (rawInvoice h formData) with
    | Success d => [(insert_strings, insert_values h d)]
    | Failure _ => []
    end.
Proof.
  destruct (safeParse (rawInvoice h formData)) as [d | issues] eqn:Hparse.
  - rewrite (createInvoice_Success h prevState formData d Hparse).
    cbn [fst sql_events].
    now rewrite (proj1 (after_sql_events h _ _ _ _)).
  - now rewrite (createInvoice_Failure h prevState formData issues Hparse).
Qed.

Lemma updateInvoice_sql_events (h : Host) (id : string) (formData : FormData) :
  sql_events (fst (updateInvoice h id formData))
  = match safeParse (rawInvoice h formData) with
    | Success d => [(update_strings, update_values id d)]
    | Failure _ => []
    end.
Proof.
  destruct (safeParse (rawInvoice h formData)) as [d | issues] eqn:Hparse.
  - rewrite (updateInvoice_Success h id formData d Hparse).
    cbn [fst sql_events].
    now rewrite (proj1 (after_sql_events h _ _ _ _)).
  - now rewrite (updateInvoice_Failure h id formData issues Hparse).
Qed.

Lemma deleteInvoice_sql_events (h : Host) (id : string) :
  sql_events (fst (deleteInvoice h id)) = [(delete_strings, [SqlString id])].
Proof.
  rewrite deleteInvoice_run.
  destruct (sql h _ _); [reflexivity |].
  destruct (revalidatePath h _); reflexivity.
Qed.

(** * Properties *)

(** C1 (as the claim states it, refuted): [deleteInvoice] sends its DELETE
    statement although no schema validation took place; it has no form
    input to validate. *)
Lemma deleteInvoice_sql_without_validation :
  sql_guarded (fst (deleteInvoice quiet_host "inv-7")) = false
  /\ existsb is_safeParse (fst (deleteInvoice quiet_host "inv-7")) = false
  /\ sql_events (fst (deleteInvoice quiet_host "inv-7"))
     = [(delete_strings, [SqlString "inv-7"])].
Proof. repeat split; vm_compute; reflexivity. Qed.

(** C1 (amended): [createInvoice] and [updateInvoice] validate the form
    input against the invoice schema before any SQL statement, and send a
    statement only when the validation succeeded; [deleteInvoice] takes an
    id only, validates nothing and sends its DELETE statement first. *)
Theorem form_actions_validate_before_sql (h : Host) :
  (forall prevState formData,
      validates_before_sql h formData (fst (createInvoice h prevState formData)))
  /\ (forall id formData,
      validates_before_sql h formData (fst (updateInvoice h id formData)))
  /\ (forall id,
      (exists rest,
          fst (deleteInvoice h id) = EvSql delete_strings [SqlString id] :: rest)
      /\ existsb is_safeParse (fst (deleteInvoice h id)) = false).
Proof.
  split; [| split].
  - intros prevState formData. unfold validates_before_sql.
    destruct (safeParse (rawInvoice h formData)) as [d | issues] eqn:Hparse.
    + rewrite (createInvoice_Success h prevState formData d Hparse).
      cbn [fst sql_guarded sql_guarded_from sql_events andb].
      destruct (after_sql_events h "Create Invoice Error:"
                  "Database Error: Failed to create Invoice."
                  insert_strings (insert_values h d)) as (_ & Hguard & _).
      repeat split; eauto.
    + rewrite (createInvoice_Failure h prevState formData issues Hparse).
      cbn. repeat split; eauto. intros Hne. now elim Hne.
  - intros id formData. unfold validates_before_sql.
    destruct (safeParse (rawInvoice h formData)) as [d | issues] eqn:Hparse.
    + rewrite (updateInvoice_Success h id formData d Hparse).
      cbn [fst sql_guarded sql_guarded_from sql_events andb].
      destruct (after_sql_events h "Update Invoice Error:"
                  "Database Error: Failed to Update Invoice."
                  update_strings (update_values id d)) as (_ & Hguard & _).
      repeat split; eauto.
    + rewrite (updateInvoice_Failure h id formData issues Hparse).
      cbn. repeat split; eauto. intros Hne. now elim Hne.
  - intros id. rewrite deleteInvoice_run.
    destruct (sql h _ _); [split; [eexists |]; reflexivity |].
    destruct (revalidatePath h _); split; (eexists || idtac); reflexivity.
Qed.

(** On a valid form the INSERT statement is sent, after the validation
    that accepted it. *)
Lemma form_actions_validate_before_sql_witness :
  sql_guarded (fst (createInvoice quiet_host empty_State sample_form)) = true
  /\ exists d, safeParse (rawInvoice quiet_host sample_form) = Success d.
Proof.
  destruct (form_actions_validate_before_sql quiet_host) as (Hc & _ & _).
  destruct (Hc empty_State sample_form) as (_ & Hguard & Hsent).
  split; [exact Hguard |]. apply Hsent. discriminate.
Defined.

(** C2 (as the claim states it, refuted): a successful [deleteInvoice]
    invalidates the cached view but calls no redirect; it returns the
    message 'Deleted Invoice'. *)
Lemma deleteInvoice_success_without_redirect :
  sql quiet_host delete_strings [SqlString "inv-7"] = None
  /\ deleteInvoice quiet_host "inv-7"
     = ([EvSql delete_strings [SqlString "inv-7"];
         EvRevalidatePath "/dashboard/invoices"],
        Fulfilled (Some {| errors := None; message := Some "Deleted Invoice" |}))
  /\ existsb is_redirect (fst (deleteInvoice quiet_host "inv-7")) = false.
Proof. repeat split; vm_compute; reflexivity. Qed.

(** C2 (amended): once its SQL statement has succeeded, each of the three
    functions calls revalidatePath('/dashboard/invoices') next;
    [createInvoice] and [updateInvoice] then call
    redirect('/dashboard/invoices') when the invalidation returned;
    [deleteInvoice] never calls redirect and, when the invalidation
    returned, answers with the message 'Deleted Invoice'. *)
Theorem success_revalidates_then_redirects (h : Host) :
  (forall prevState formData d,
      safeParse (rawInvoice h formData) = Success d ->
      sql h insert_strings (insert_values h d) = None ->
      exists rest,
        fst (createInvoice h prevState formData)
        = EvSafeParse (rawInvoice h formData)
            :: EvSql insert_strings (insert_values h d)
            :: EvRevalidatePath "/dashboard/invoices" :: rest
        /\ (revalidatePath h "/dashboard/invoices" = None ->
            exists rest', rest = EvRedirect "/dashboard/invoices" :: rest'))
  /\ (forall id formData d,
      safeParse (rawInvoice h formData) = Success d ->
      sql h update_strings (update_values id d) = None ->
      exists rest,
        fst (updateInvoice h id formData)
        = EvSafeParse (rawInvoice h formData)
            :: EvSql update_strings (update_values id d)
            :: EvRevalidatePath "/dashboard/invoices" :: rest
        /\ (revalidatePath h "/dashboard/invoices" = None ->
            exists rest', rest = EvRedirect "/dashboard/invoices" :: rest'))
  /\ (forall id,
      sql h delete_strings [SqlString id] = None ->
      (exists rest,
          fst (deleteInvoice h id)
          = EvSql delete_strings [SqlString id]
              :: EvRevalidatePath "/dashboard/invoices" :: rest)
      /\ existsb is_redirect (fst (deleteInvoice h id)) = false
      /\ (revalidatePath h "/dashboard/invoices" = None ->
          deleteInvoice h id
          = ([EvSql delete_strings [SqlString id];
              EvRevalidatePath "/dashboard/invoices"],
             Fulfilled (Some {| errors := None;
                                message := Some "Deleted Invoice" |})))).
Proof.
  split; [| split].
  - intros prevState formData d Hparse Hsql.
    rewrite (createInvoice_Success h prevState formData d Hparse).
    unfold after_sql. rewrite Hsql. cbn [fst].
    destruct (revalidatePath h _) as [e |].
    + eexists. split; [reflexivity | discriminate].
    + destruct (redirect h _); eexists; (split; [reflexivity |]);
        intros _; eexists; reflexivity.
  - intros id formData d Hparse Hsql.
    rewrite (updateInvoice_Success h id formData d Hparse).
    unfold after_sql. rewrite Hsql. cbn [fst].
    destruct (revalidatePath h _) as [e |].
    + eexists. split; [reflexivity | discriminate].
    + destruct (redirect h _); eexists; (split; [reflexivity |]);
        intros _; eexists; reflexivity.
  - intros id Hsql. rewrite deleteInvoice_run, Hsql.
    destruct (revalidatePath h _) as [e |].
    + split; [eexists; reflexivity |]. split; [reflexivity | discriminate].
    + split; [eexists; reflexivity |]. split; reflexivity.
Qed.

Lemma success_revalidates_then_redirects_witness :
  (exists rest,
      fst (createInvoice quiet_host empty_State sample_form)
      = EvSafeParse (rawInvoice quiet_host sample_form)
          :: EvSql insert_strings
               [SqlString "c-42"; SqlNumber 25000%float; SqlString "paid";
                SqlString "2024-05-17"]
          :: EvRevalidatePath "/dashboard/invoices" :: rest
      /\ (revalidatePath quiet_host "/dashboard/invoices" = None ->
          exists rest', rest = EvRedirect "/dashboard/invoices" :: rest'))
  /\ existsb is_redirect (fst (deleteInvoice quiet_host "inv-7")) = false.
Proof.
  destruct (success_revalidates_then_redirects quiet_host) as (Hc & _ & Hd).
  split.
  - apply (Hc empty_State sample_form
             {| customerId := "c-42"; amount := 250%float; status := "paid" |});
      reflexivity.
  - apply (Hd "inv-7"). reflexivity.
Defined.

(** C3: when the form input fails schema validation, [createInvoice] and
    [updateInvoice] return a State holding the flattened per-field errors
    and the message 'Missing Fields. Failed to create Invoice.'
    (respectively 'Missing Fields. Failed to Update Invoice.'), and no SQL
    statement is executed. *)
Theorem invalid_form_reports_field_errors (h : Host) (formData : FormData)
  (issues : list ZodIssue) :
  safeParse (rawInvoice h formData) = Failure issues ->
  (forall prevState,
      snd (createInvoice h prevState formData)
      = Fulfilled (Some {| errors := Some (flatten_fieldErrors issues);
                           message := Some "Missing Fields. Failed to create Invoice." |})
      /\ fst (createInvoice h prevState formData)
         = [EvSafeParse (rawInvoice h formData)]
      /\ sql_events (fst (createInvoice h prevState formData)) = [])
  /\ (forall id,
      snd (updateInvoice h id formData)
      = Fulfilled (Some {| errors := Some (flatten_fieldErrors issues);
                           message := Some "Missing Fields. Failed to Update Invoice." |})
      /\ fst (updateInvoice h id formData)
         = [EvSafeParse (rawInvoice h formData)]
      /\ sql_events (fst (updateInvoice h id formData)) = []).
Proof.
  intros Hparse. split.
  - intros prevState.
    rewrite (createInvoice_Failure h prevState formData issues Hparse).
    repeat split.
  - intros id.
    rewrite (updateInvoice_Failure h id formData issues Hparse).
    repeat split.
Qed.

Lemma invalid_form_reports_field_errors_witness :
  snd (createInvoice quiet_host empty_State free_form)
  = Fulfilled
      (Some {| errors :=
                 Some {| customerId_errors := None;
                         amount_errors :=
                           Some ["Please enter an amount greater than $0."];
                         status_errors := None |};
               message := Some "Missing Fields. Failed to create Invoice." |})
  /\ sql_events (fst (updateInvoice quiet_host "inv-7" free_form)) = [].
Proof.
  destruct (invalid_form_reports_field_errors quiet_host free_form
              [{| issue_path := "amount";
                  issue_message := "Please enter an amount greater than $0." |}]
              eq_refl) as (Hc & Hu).
  split.
  - exact (proj1 (Hc empty_State)).
  - exact (proj2 (proj2 (Hu "inv-7"))).
Defined.

(** C4: when the SQL statement throws, each mutation function catches
    the error and is fulfilled with its database-error message instead of
    being rejected, and neither revalidatePath nor redirect is called: on
    a validated form [createInvoice] and [updateInvoice] send their
    statement and, when it throws, log the error and return the message;
    [deleteInvoice] does so for every id.  For every input, a statement
    that was sent and threw leads to the message, with no cache
    invalidation and no redirect. *)
Theorem sql_throw_is_reported (h : Host) (e : JsError) :
  (forall prevState formData d,
      safeParse (rawInvoice h formData) = Success d ->
      sql h insert_strings (insert_values h d) = Some e ->
      createInvoice h prevState formData
      = ([EvSafeParse (rawInvoice h formData);
          EvSql insert_strings (insert_values h d);
          EvConsoleError "Create Invoice Error:" e],
         Fulfilled (Some {| errors := None;
                            message := Some "Database Error: Failed to create Invoice." |})))
  /\ (forall id formData d,
      safeParse (rawInvoice h formData) = Success d ->
      sql h update_strings (update_values id d) = Some e ->
      updateInvoice h id formData
      = ([EvSafeParse (rawInvoice h formData);
          EvSql update_strings (update_values id d);
          EvConsoleError "Update Invoice Error:" e],
         Fulfilled (Some {| errors := None;
                            message := Some "Database Error: Failed to Update Invoice." |})))
  /\ (forall id,
      sql h delete_strings [SqlString id] = Some e ->
      deleteInvoice h id
      = ([EvSql delete_strings [SqlString id];
          EvConsoleError "Delete Invoice Error:" e],
         Fulfilled (Some {| errors := None;
                            message := Some "Database Error: Failed to Delete Invoice." |})))
  /\ (forall strings values,
      sql h strings values = Some e ->
      (forall prevState formData,
          In (strings, values)
            (sql_events (fst (createInvoice h prevState formData))) ->
          snd (createInvoice h prevState formData)
          = Fulfilled (Some {| errors := None;
                               message := Some "Database Error: Failed to create Invoice." |})
          /\ existsb is_revalidatePath (fst (createInvoice h prevState formData)) = false
          /\ existsb is_redirect (fst (createInvoice h prevState formData)) = false)
      /\ (forall id formData,
          In (strings, values) (sql_events (fst (updateInvoice h id formData))) ->
          snd (updateInvoice h id formData)
          = Fulfilled (Some {| errors := None;
                               message := Some "Database Error: Failed to Update Invoice." |})
          /\ existsb is_revalidatePath (fst (updateInvoice h id formData)) = false
          /\ existsb is_redirect (fst (updateInvoice h id formData)) = false)
      /\ (forall id,
          In (strings, values) (sql_events (fst (deleteInvoice h id))) ->
          snd (deleteInvoice h id)
          = Fulfilled (Some {| errors := None;
                               message := Some "Database Error: Failed to Delete Invoice." |})
          /\ existsb is_revalidatePath (fst (deleteInvoice h id)) = false
          /\ existsb is_redirect (fst (deleteInvoice h id)) = false)).
Proof.
  assert (Hcreate : forall prevState formData d,
             safeParse (rawInvoice h formData) = Success d ->
             sql h insert_strings (insert_values h d) = Some e ->
             createInvoice h prevState formData
             = ([EvSafeParse (rawInvoice h formData);
                 EvSql insert_strings (insert_values h d);
                 EvConsoleError "Create Invoice Error:" e],
                Fulfilled (database_error "Database Error: Failed to create Invoice."))).
  { intros prevState formData d Hparse Hthrow.
    rewrite (createInvoice_Success h prevState formData d Hparse).
    unfold after_sql. rewrite Hthrow. reflexivity. }
  assert (Hupdate : forall id formData d,
             safeParse (rawInvoice h formData) = Success d ->
             sql h update_strings (update_values id d) = Some e ->
             updateInvoice h id formData
             = ([EvSafeParse (rawInvoice h formData);
                 EvSql update_strings (update_values id d);
                 EvConsoleError "Update Invoice Error:" e],
                Fulfilled (database_error "Database Error: Failed to Update Invoice."))).
  { intros id formData d Hparse Hthrow.
    rewrite (updateInvoice_Success h id formData d Hparse).
    unfold after_sql. rewrite Hthrow. reflexivity. }
  assert (Hdelete : forall id,
             sql h delete_strings [SqlString id] = Some e ->
             deleteInvoice h id
             = ([EvSql delete_strings [SqlString id];
                 EvConsoleError "Delete Invoice Error:" e],
                Fulfilled (database_error "Database Error: Failed to Delete Invoice."))).
  { intros id Hthrow. rewrite deleteInvoice_run, Hthrow. reflexivity. }
  split; [exact Hcreate |]. split; [exact Hupdate |]. split; [exact Hdelete |].
  intros strings values Hthrow. split; [| split].
  - intros prevState formData Hin.
    rewrite createInvoice_sql_events in Hin.
    destruct (safeParse (rawInvoice h formData)) as [d | issues] eqn:Hparse;
      [| destruct Hin].
    destruct Hin as [[= <- <-] | []].
    rewrite (Hcreate prevState formData d Hparse Hthrow). repeat split.
  - intros id formData Hin.
    rewrite updateInvoice_sql_events in Hin.
    destruct (safeParse (rawInvoice h formData)) as [d | issues] eqn:Hparse;
      [| destruct Hin].
    destruct Hin as [[= <- <-] | []].
    rewrite (Hupdate id formData d Hparse Hthrow). repeat split.
  - intros id Hin. rewrite deleteInvoice_sql_events in Hin.
    destruct Hin as [[= <- <-] | []].
    rewrite (Hdelete id Hthrow). repeat split.
Qed.

(** With a database that refuses every statement, all three functions
    send their statement, log the error and answer with their message. *)
Lemma sql_throw_is_reported_witness :
  createInvoice db_down_host empty_State sample_form
  = ([EvSafeParse (rawInvoice db_down_host sample_form);
      EvSql insert_strings
        [SqlString "c-42"; SqlNumber 25000%float; SqlString "paid";
         SqlString "2024-05-17"];
      EvConsoleError "Create Invoice Error:" (OtherError "ECONNREFUSED")],
     Fulfilled (Some {| errors := None;
                        message := Some "Database Error: Failed to create Invoice." |}))
  /\ updateInvoice db_down_host "inv-7" sample_form
     = ([EvSafeParse (rawInvoice db_down_host sample_form);
         EvSql update_strings
           [SqlString "c-42"; SqlNumber 25000%float; SqlString "paid";
            SqlString "inv-7"];
         EvConsoleError "Update Invoice Error:" (OtherError "ECONNREFUSED")],
        Fulfilled (Some {| errors := None;
                           message := Some "Database Error: Failed to Update Invoice." |}))
  /\ deleteInvoice db_down_host "inv-7"
     = ([EvSql delete_strings [SqlString "inv-7"];
         EvConsoleError "Delete Invoice Error:" (OtherError "ECONNREFUSED")],
        Fulfilled (Some {| errors := None;
                           message := Some "Database Error: Failed to Delete Invoice." |}))
  /\ existsb is_revalidatePath (fst (createInvoice db_down_host empty_State sample_form))
     = false.
Proof.
  destruct (sql_throw_is_reported db_down_host (OtherError "ECONNREFUSED"))
    as (Hc & Hu & Hd & Hany).
  split; [| split; [| split]].
  - apply (Hc empty_State sample_form
             {| customerId := "c-42"; amount := 250%float; status := "paid" |});
      reflexivity.
  - apply (Hu "inv-7" sample_form
             {| customerId := "c-42"; amount := 250%float; status := "paid" |});
      reflexivity.
  - apply (Hd "inv-7"). reflexivity.
  - apply (proj1 (Hany insert_strings
                    [SqlString "c-42"; SqlNumber 25000%float; SqlString "paid";
                     SqlString "2024-05-17"] eq_refl)
             empty_State sample_form).
    left. reflexivity.
Defined.

(** C5: [authenticate] hands the credential check to
    signIn('credentials', formData) and makes no other call; an
    [AuthError] of type 'CredentialsSignin' becomes 'Invalid credentials.
    Please try again.', any other [AuthError] becomes 'Something went wrong.
    Please try again later.', and any other thrown value is rethrown. *)
Theorem authenticate_maps_signIn_failures (h : Host) (prevState : option string)
  (formData : FormData) :
  fst (authenticate h prevState formData) = [EvSignIn "credentials" formData]
  /\ (signIn h "credentials" formData = Some (AuthError "CredentialsSignin") ->
      snd (authenticate h prevState formData)
      = Fulfilled (Some "Invalid credentials. Please try again."))
  /\ (forall type,
      type <> "CredentialsSignin" ->
      signIn h "credentials" formData = Some (AuthError type) ->
      snd (authenticate h prevState formData)
      = Fulfilled (Some "Something went wrong. Please try again later."))
  /\ (forall name,
      signIn h "credentials" formData = Some (OtherError name) ->
      snd (authenticate h prevState formData) = Rejected (OtherError name)).
Proof.
  unfold authenticate. unfold_statements.
  destruct (signIn h "credentials" formData) as [[type | name] |] eqn:Hsign.
  - destruct (String.eqb type "CredentialsSignin") eqn:Htype.
    + apply String.eqb_eq in Htype. subst type.
      repeat split; try discriminate.
      intros type Hne [= <-]. now elim Hne.
    + apply String.eqb_neq in Htype.
      repeat split; try discriminate.
      intros [= ->]. now elim Htype.
  - repeat split; try discriminate.
    intros name' [= <-]. reflexivity.
  - repeat split; discriminate.
Qed.

Lemma authenticate_maps_signIn_failures_witness :
  snd (authenticate (signIn_throws (AuthError "CredentialsSignin")) None [])
  = Fulfilled (Some "Invalid credentials. Please try again.")
  /\ snd (authenticate (signIn_throws (AuthError "CallbackRouteError")) None [])
     = Fulfilled (Some "Something went wrong. Please try again later.")
  /\ snd (authenticate (signIn_throws (OtherError "NEXT_REDIRECT")) None [])
     = Rejected (OtherError "NEXT_REDIRECT").
Proof.
  split; [| split].
  - apply (authenticate_maps_signIn_failures
             (signIn_throws (AuthError "CredentialsSignin")) None []).
    reflexivity.
  - apply (proj1 (proj2 (proj2 (authenticate_maps_signIn_failures
             (signIn_throws (AuthError "CallbackRouteError")) None [])))
             "CallbackRouteError"); [discriminate | reflexivity].
  - apply (proj2 (proj2 (proj2 (authenticate_maps_signIn_failures
             (signIn_throws (OtherError "NEXT_REDIRECT")) None [])))
             "NEXT_REDIRECT"). reflexivity.
Defined.

(** C10: when signIn completes without throwing, [authenticate] is
    fulfilled with undefined; it is fulfilled with a string only when
    signIn threw an [AuthError]. *)
Theorem authenticate_defined_only_on_AuthError (h : Host)
  (prevState : option string) (formData : FormData) :
  (signIn h "credentials" formData = None ->
   authenticate h prevState formData
   = ([EvSignIn "credentials" formData], Fulfilled None))
  /\ (forall msg,
      snd (authenticate h prevState formData) = Fulfilled (Some msg) ->
      exists type, signIn h "credentials" formData = Some (AuthError type)).
Proof.
  unfold authenticate. unfold_statements.
  destruct (signIn h "credentials" formData) as [[type | name] |].
  - split; [discriminate |]. intros msg _. exists type. reflexivity.
  - split; [discriminate |]. cbn. intros msg Hmsg. discriminate Hmsg.
  - split; [reflexivity |]. cbn. intros msg Hmsg. discriminate Hmsg.
Qed.

Lemma authenticate_defined_only_on_AuthError_witness :
  authenticate quiet_host (Some "earlier message") []
  = ([EvSignIn "credentials" []], Fulfilled None)
  /\ exists type,
      signIn (signIn_throws (AuthError "AccessDenied")) "credentials" []
      = Some (AuthError type).
Proof.
  split.
  - apply (authenticate_defined_only_on_AuthError quiet_host
             (Some "earlier message") []). reflexivity.
  - apply (proj2 (authenticate_defined_only_on_AuthError
                    (signIn_throws (AuthError "AccessDenied")) None [])
             "Something went wrong. Please try again later.").
    reflexivity.
Defined.

(** C6: the statement text each mutation function emits is one fixed
    template, the same for every host and every input; the values supplied
    by the caller never reach the text, they are passed as the template's
    parameters. *)
Theorem sql_text_is_fixed_template :
  (forall h prevState formData,
      Forall (eq insert_strings)
        (statement_texts (fst (createInvoice h prevState formData))))
  /\ (forall h id formData,
      Forall (eq update_strings)
        (statement_texts (fst (updateInvoice h id formData))))
  /\ (forall h id,
      statement_texts (fst (deleteInvoice h id)) = [delete_strings])
  /\ (forall h1 h2 prevState1 prevState2 formData1 formData2 text1 text2,
      In text1 (statement_texts (fst (createInvoice h1 prevState1 formData1))) ->
      In text2 (statement_texts (fst (createInvoice h2 prevState2 formData2))) ->
      text1 = text2)
  /\ (forall h1 h2 id1 id2 formData1 formData2 text1 text2,
      In text1 (statement_texts (fst (updateInvoice h1 id1 formData1))) ->
      In text2 (statement_texts (fst (updateInvoice h2 id2 formData2))) ->
      text1 = text2)
  /\ (forall h1 h2 id1 id2,
      statement_texts (fst (deleteInvoice h1 id1))
      = statement_texts (fst (deleteInvoice h2 id2))).
Proof.
  assert (Hc : forall h prevState formData,
             Forall (eq insert_strings)
               (statement_texts (fst (createInvoice h prevState formData)))).
  { intros. unfold statement_texts. rewrite createInvoice_sql_events.
    destruct (safeParse _); repeat constructor. }
  assert (Hu : forall h id formData,
             Forall (eq update_strings)
               (statement_texts (fst (updateInvoice h id formData)))).
  { intros. unfold statement_texts. rewrite updateInvoice_sql_events.
    destruct (safeParse _); repeat constructor. }
  assert (Hd : forall h id,
             statement_texts (fst (deleteInvoice h id)) = [delete_strings]).
  { intros. unfold statement_texts. now rewrite deleteInvoice_sql_events. }
  repeat split; auto.
  - intros h1 h2 p1 p2 f1 f2 text1 text2 H1 H2.
    pose proof (Hc h1 p1 f1) as A1. pose proof (Hc h2 p2 f2) as A2.
    rewrite Forall_forall in A1, A2.
    now rewrite <- (A1 _ H1), <- (A2 _ H2).
  - intros h1 h2 i1 i2 f1 f2 text1 text2 H1 H2.
    pose proof (Hu h1 i1 f1) as A1. pose proof (Hu h2 i2 f2) as A2.
    rewrite Forall_forall in A1, A2.
    now rewrite <- (A1 _ H1), <- (A2 _ H2).
  - intros. now rewrite !Hd.
Qed.

Lemma sql_text_is_fixed_template_witness :
  hd [] (statement_texts (fst (createInvoice quiet_host empty_State sample_form)))
  = hd [] (statement_texts
             (fst (createInvoice db_down_host empty_State
                     [("customerId", EntryString "c-7");
                      ("amount", EntryString "3");
                      ("status", EntryString "pending")]))).
Proof.
  destruct sql_text_is_fixed_template as (_ & _ & _ & Hsame & _).
  apply (Hsame quiet_host db_down_host empty_State empty_State sample_form
           [("customerId", EntryString "c-7"); ("amount", EntryString "3");
            ("status", EntryString "pending")]);
    left; reflexivity.
Defined.

(** No exported function ever sends a statement that reads invoices, and
    [authenticate] sends no statement at all. *)
Lemma trace_never_lists (h : Host) (c : Call) :
  existsb (performs ActList) (trace_of h c) = false.
Proof.
  destruct c as [prevState formData | prevState formData | id formData | id];
    cbn [trace_of].
  - unfold authenticate. unfold_statements.
    destruct (signIn h _ _) as [[type | name] |]; [| reflexivity | reflexivity].
    destruct (String.eqb type "CredentialsSignin"); reflexivity.
  - destruct (safeParse (rawInvoice h formData)) as [d | issues] eqn:Hparse.
    + rewrite (createInvoice_Success h prevState formData d Hparse).
      unfold after_sql.
      destruct (sql h _ _); [reflexivity |].
      destruct (revalidatePath h _); [reflexivity |].
      destruct (redirect h _); reflexivity.
    + now rewrite (createInvoice_Failure h prevState formData issues Hparse).
  - destruct (safeParse (rawInvoice h formData)) as [d | issues] eqn:Hparse.
    + rewrite (updateInvoice_Success h id formData d Hparse).
      unfold after_sql.
      destruct (sql h _ _); [reflexivity |].
      destruct (revalidatePath h _); [reflexivity |].
      destruct (redirect h _); reflexivity.
    + now rewrite (updateInvoice_Failure h id formData issues Hparse).
  - rewrite deleteInvoice_run.
    destruct (sql h _ _); [reflexivity |].
    destruct (revalidatePath h _); reflexivity.
Qed.

(** C7 (as the claim states it, refuted): the module has no function that
    lists invoice records; no exported function, on any input and any host,
    sends a SELECT statement. *)
Lemma no_exported_function_lists_invoices : ~ provides ActList.
Proof.
  intros (h & c & Hlist). rewrite trace_never_lists in Hlist. discriminate.
Qed.

(** C7 (amended): the module exports a function for four of the five
    operations: [authenticate] checks credentials through signIn,
    [createInvoice] inserts, [updateInvoice] updates and [deleteInvoice]
    deletes an invoice record. *)
Theorem four_operations_are_exported :
  existsb (performs ActAuthenticate)
    (trace_of quiet_host (CallAuthenticate None [])) = true
  /\ existsb (performs ActCreate)
       (trace_of quiet_host (CallCreateInvoice empty_State sample_form)) = true
  /\ existsb (performs ActUpdate)
       (trace_of quiet_host (CallUpdateInvoice "inv-7" sample_form)) = true
  /\ existsb (performs ActDelete)
       (trace_of quiet_host (CallDeleteInvoice "inv-7")) = true
  /\ (forall a, a <> ActList <-> provides a).
Proof.
  assert (Ha : existsb (performs ActAuthenticate)
                 (trace_of quiet_host (CallAuthenticate None [])) = true)
    by (vm_compute; reflexivity).
  assert (Hc : existsb (performs ActCreate)
                 (trace_of quiet_host (CallCreateInvoice empty_State sample_form))
               = true)
    by (vm_compute; reflexivity).
  assert (Hu : existsb (performs ActUpdate)
                 (trace_of quiet_host (CallUpdateInvoice "inv-7" sample_form))
               = true)
    by (vm_compute; reflexivity).
  assert (Hd : existsb (performs ActDelete)
                 (trace_of quiet_host (CallDeleteInvoice "inv-7")) = true)
    by (vm_compute; reflexivity).
  repeat split; auto.
  - intros Hne. unfold provides.
    destruct a; [| now elim Hne | | |]; eauto.
  - intros (h & c & Hrun) ->. rewrite trace_never_lists in Hrun. discriminate.
Qed.

(** [createInvoice] is the exported function for creating a record. *)
Lemma four_operations_are_exported_witness : provides ActCreate.
Proof.
  destruct four_operations_are_exported as (_ & _ & _ & _ & Hall).
  apply Hall. discriminate.
Defined.

(** C8: [createInvoice] and [updateInvoice] send their SQL statement only
    when the coerced amount is a number strictly greater than 0 and the
    status is exactly 'pending' or 'paid'; on every input that violates
    either condition they take the validation-error branch and send no
    statement. *)
Theorem sql_only_under_validated_precondition (h : Host) (formData : FormData) :
  (forall prevState,
      sql_events (fst (createInvoice h prevState formData)) <> [] ->
      (0 <? Number h (fromEntries formData "amount"))%float = true
      /\ (fromEntries formData "status" = Some (EntryString "pending")
          \/ fromEntries formData "status" = Some (EntryString "paid")))
  /\ (forall id,
      sql_events (fst (updateInvoice h id formData)) <> [] ->
      (0 <? Number h (fromEntries formData "amount"))%float = true
      /\ (fromEntries formData "status" = Some (EntryString "pending")
          \/ fromEntries formData "status" = Some (EntryString "paid")))
  /\ ((0 <? Number h (fromEntries formData "amount"))%float = false
      \/ (fromEntries formData "status" <> Some (EntryString "pending")
          /\ fromEntries formData "status" <> Some (EntryString "paid")) ->
      exists issues,
        safeParse (rawInvoice h formData) = Failure issues
        /\ (forall prevState,
            createInvoice h prevState formData
            = ([EvSafeParse (rawInvoice h formData)],
               Fulfilled
                 (Some {| errors := Some (flatten_fieldErrors issues);
                          message := Some "Missing Fields. Failed to create Invoice." |})))
        /\ (forall id,
            updateInvoice h id formData
            = ([EvSafeParse (rawInvoice h formData)],
               Fulfilled
                 (Some {| errors := Some (flatten_fieldErrors issues);
                          message := Some "Missing Fields. Failed to Update Invoice." |})))).
Proof.
  split; [| split].
  - intros prevState. rewrite createInvoice_sql_events.
    destruct (safeParse (rawInvoice h formData)) as [d | issues] eqn:Hparse.
    + intros _. apply amount_and_status_ok_spec.
      apply safeParse_Success in Hparse. tauto.
    + intros Hne. now elim Hne.
  - intros id. rewrite updateInvoice_sql_events.
    destruct (safeParse (rawInvoice h formData)) as [d | issues] eqn:Hparse.
    + intros _. apply amount_and_status_ok_spec.
      apply safeParse_Success in Hparse. tauto.
    + intros Hne. now elim Hne.
  - intros Hbad.
    assert (Hnot : amount_and_status_ok (rawInvoice h formData) = false).
    { apply not_true_is_false. intros Hok.
      apply amount_and_status_ok_spec in Hok. destruct Hok as [Hgt Hst].
      destruct Hbad as [Hle | [Hp Hq]]; [congruence | tauto]. }
    destruct (safeParse_Failure _ Hnot) as [issues Hparse].
    exists issues. split; [exact Hparse |]. split.
    + intros prevState. now apply createInvoice_Failure.
    + intros id. now apply updateInvoice_Failure.
Qed.

Lemma sql_only_under_validated_precondition_witness :
  ((0 <? Number quiet_host (fromEntries sample_form "amount"))%float = true
   /\ (fromEntries sample_form "status" = Some (EntryString "pending")
       \/ fromEntries sample_form "status" = Some (EntryString "paid")))
  /\ exists issues,
      safeParse (rawInvoice quiet_host free_form) = Failure issues
      /\ (forall prevState,
          createInvoice quiet_host prevState free_form
          = ([EvSafeParse (rawInvoice quiet_host free_form)],
             Fulfilled
               (Some {| errors := Some (flatten_fieldErrors issues);
                        message := Some "Missing Fields. Failed to create Invoice." |})))
      /\ (forall id,
          updateInvoice quiet_host id free_form
          = ([EvSafeParse (rawInvoice quiet_host free_form)],
             Fulfilled
               (Some {| errors := Some (flatten_fieldErrors issues);
                        message := Some "Missing Fields. Failed to Update Invoice." |}))).
Proof.
  split.
  - apply (proj1 (sql_only_under_validated_precondition quiet_host sample_form)
             empty_State).
    discriminate.
  - apply (proj2 (proj2 (sql_only_under_validated_precondition quiet_host free_form))).
    left. reflexivity.
Defined.

(** ** The product with 100 *)













(** ** Remarks *)

(** The product is the binary64 one: the double nearest to 1.1 times 100
    is the double just above 110. *)
Remark hundredfold_is_binary64_product :
  (0x1.199999999999ap+0 * 100)%float = 0x1.b800000000001p+6%float
  /\ (0x1.b800000000001p+6 =? 110)%float = false.
Proof. split; reflexivity. Qed.

(** The calls to revalidatePath and redirect sit inside the [try] block:
    whatever they throw reaches the same [catch] clause as a failed
    statement. *)
Remark throw_after_sql_is_caught (h : Host) (prevState : State)
  (formData : FormData) (d : InvoiceData) (e : JsError) :
  safeParse (rawInvoice h formData) = Success d ->
  sql h insert_strings (insert_values h d) = None ->
  revalidatePath h "/dashboard/invoices" = None ->
  redirect h "/dashboard/invoices" = Some e ->
  createInvoice h prevState formData
  = ([EvSafeParse (rawInvoice h formData);
      EvSql insert_strings (insert_values h d);
      EvRevalidatePath "/dashboard/invoices";
      EvRedirect "/dashboard/invoices";
      EvConsoleError "Create Invoice Error:" e],
     Fulfilled (database_error "Database Error: Failed to create Invoice.")).
Proof.
  intros Hparse Hsql Hreval Hredir.
  rewrite (createInvoice_Success h prevState formData d Hparse).
  unfold after_sql. rewrite Hsql, Hreval, Hredir. reflexivity.
Qed.

(** * Further properties of the actions *)

(** ** Reading the form *)

Lemma fold_entries_None (key : string) (formData : FormData)
  (acc : option FormDataEntryValue) :
  fold_left
    (fun acc (entry : string * FormDataEntryValue) =>
       if String.eqb (fst entry) key then Some (snd entry) else acc)
    formData acc = None
  <-> (acc = None /\ forall entry, In entry formData -> fst entry <> key).
Proof.
  revert acc. induction formData as [| [k v] rest IH]; intros acc; simpl.
  - intuition.
  - rewrite IH. destruct (String.eqb k key) eqn:Hk.
    + apply String.eqb_eq in Hk. split.
      * intros [Habs _]. discriminate.
      * intros [_ Hall]. exfalso. apply (Hall (k, v)); auto.
    + apply String.eqb_neq in Hk. split.
      * intros [-> Hall]. split; [reflexivity |].
        intros entry [<- | Hin]; auto.
      * intros [-> Hall]. split; auto.
Qed.

Lemma fold_entries_Some (key : string) (formData : FormData)
  (acc : option FormDataEntryValue) (v : FormDataEntryValue) :
  fold_left
    (fun acc (entry : string * FormDataEntryValue) =>
       if String.eqb (fst entry) key then Some (snd entry) else acc)
    formData acc = Some v ->
  acc = Some v \/ In (key, v) formData.
Proof.
  revert acc. induction formData as [| [k w] rest IH]; intros acc; simpl.
  - auto.
  - intros Hfold. apply IH in Hfold. destruct (String.eqb k key) eqn:Hk.
    + apply String.eqb_eq in Hk. subst k.
      destruct Hfold as [[= ->] | Hin]; auto.
    + destruct Hfold as [-> | Hin]; auto.
Qed.

(** X1: reading a key from the object built from the form gives the value
    of the last entry with that key: an entry appended to the form replaces
    any earlier entry of the same name and leaves the other keys alone. *)
Theorem fromEntries_last_entry_wins (formData : FormData) (key : string)
  (v : FormDataEntryValue) (key' : string) :
  fromEntries (formData ++ [(key, v)]) key'
  = if String.eqb key key' then Some v else fromEntries formData key'.
Proof.
  unfold fromEntries. rewrite fold_left_app. simpl. reflexivity.
Qed.

(** X2: for each of the keys the actions read (customerId, amount,
    status), the key reads as undefined exactly when no entry of the form
    has that name, and a value read for the key is the value of an entry of
    the form with that name. *)
Theorem fromEntries_reads_the_form (formData : FormData) (key : string) :
  In key schema_keys ->
  (fromEntries formData key = None
   <-> forall entry, In entry formData -> fst entry <> key)
  /\ (forall v, fromEntries formData key = Some v -> In (key, v) formData).
Proof.
  intros _. unfold fromEntries. split.
  - rewrite fold_entries_None. intuition.
  - intros v Hread. apply fold_entries_Some in Hread.
    destruct Hread as [Habs | Hin]; [discriminate | exact Hin].
Qed.

Lemma fromEntries_reads_the_form_witness :
  In ("status", EntryString "paid") sample_form
  /\ fromEntries form_without_status "status" = None.
Proof.
  split.
  - apply (proj2 (fromEntries_reads_the_form sample_form "status"
                    (or_intror (or_intror (or_introl eq_refl))))).
    reflexivity.
  - apply (proj1 (fromEntries_reads_the_form form_without_status "status"
                    (or_intror (or_intror (or_introl eq_refl))))).
    intros entry [<- | [<- | []]]; discriminate.
Defined.

Lemma rawInvoice_agree (h : Host) (formData1 formData2 : FormData) :
  (forall key, In key schema_keys ->
               fromEntries formData1 key = fromEntries formData2 key) ->
  rawInvoice h formData1 = rawInvoice h formData2.
Proof.
  intros Hsame. unfold rawInvoice.
  rewrite (Hsame "customerId"), (Hsame "amount"), (Hsame "status");
    simpl; auto.
Qed.

(** X3: the form actions depend on the form only through the entries named
    customerId, amount and status: two forms that agree on these three keys
    give the same calls and the same result, so entries such as id or date
    are ignored. *)
Theorem other_form_entries_are_ignored (h : Host)
  (formData1 formData2 : FormData) :
  (forall key, In key schema_keys ->
               fromEntries formData1 key = fromEntries formData2 key) ->
  (forall prevState,
      createInvoice h prevState formData1 = createInvoice h prevState formData2)
  /\ (forall id, updateInvoice h id formData1 = updateInvoice h id formData2).
Proof.
  intros Hsame. pose proof (rawInvoice_agree h _ _ Hsame) as Hraw.
  split.
  - intros prevState. unfold createInvoice. cbv zeta. rewrite Hraw. reflexivity.
  - intros id. unfold updateInvoice. cbv zeta. rewrite Hraw. reflexivity.
Qed.

Lemma other_form_entries_are_ignored_witness :
  createInvoice quiet_host empty_State
    (sample_form ++ [("date", EntryString "1999-01-01"); ("id", EntryString "x")])
  = createInvoice quiet_host empty_State sample_form.
Proof.
  apply (other_form_entries_are_ignored quiet_host
           (sample_form
              ++ [("date", EntryString "1999-01-01"); ("id", EntryString "x")])
           sample_form).
  intros key [<- | [<- | [<- | []]]]; reflexivity.
Defined.

(** ** Validation *)

Lemma leb_zero_not_nan (v : float) :
  (v <=? 0)%float = true -> is_nan v = false.
Proof.
  unfold is_nan. rewrite FloatAxioms.eqb_spec, leb_spec, Prim2SF_zero.
  unfold SFeqb, SFleb.
  destruct (Prim2SF v) as [s | s | | s m e].
  - destruct s; simpl; congruence.
  - destruct s; simpl; congruence.
  - simpl; congruence.
  - rewrite SFcompare_finite_refl. reflexivity.
Qed.

(** The issues of a failed validation are those of the three fields, in
    the order of the schema. *)
Lemma safeParse_issues (input : RawInvoice) (issues : list ZodIssue) :
  safeParse input = Failure issues ->
  issues
  = issues_of "customerId"
      (z_string "Please select a customer." (raw_customerId input))
      ++ issues_of "amount"
           (z_coerce_number_gt0 "Please enter an amount greater than $0."
              (raw_amount input))
      ++ issues_of "status"
           (z_enum_status "Please select an invoice status." (raw_status input)).
Proof.
  unfold safeParse.
  destruct (z_string _ (raw_customerId input));
    destruct (z_coerce_number_gt0 _ (raw_amount input));
    destruct (z_enum_status _ (raw_status input));
    intros [= <-] || discriminate; reflexivity.
Qed.

(** After a failed validation each field carries the message of its own
    issue, if it has one. *)
Lemma flatten_after_failure (input : RawInvoice) (issues : list ZodIssue) :
  safeParse input = Failure issues ->
  flatten_fieldErrors issues
  = {| customerId_errors :=
         messages_of (z_string "Please select a customer." (raw_customerId input));
       amount_errors :=
         messages_of (z_coerce_number_gt0 "Please enter an amount greater than $0."
                        (raw_amount input));
       status_errors :=
         messages_of (z_enum_status "Please select an invoice status."
                        (raw_status input)) |}.
Proof.
  intros Hparse. rewrite (safeParse_issues input issues Hparse).
  destruct (z_string _ (raw_customerId input));
    destruct (z_coerce_number_gt0 _ (raw_amount input));
    destruct (z_enum_status _ (raw_status input));
    reflexivity.
Qed.

Lemma messages_of_z_string (msg : string) (v : option FormDataEntryValue) :
  messages_of (z_string msg v) = None <-> exists s, v = Some (EntryString s).
Proof.
  destruct v as [[s | f] |]; simpl; split; try discriminate; eauto;
    intros [s' Hs']; discriminate.
Qed.

Lemma messages_of_z_coerce_number_gt0 (msg : string) (v : float) :
  messages_of (z_coerce_number_gt0 msg v) = None <-> (0 <? v)%float = true.
Proof.
  rewrite <- gt0_iff. unfold z_coerce_number_gt0.
  destruct (is_nan v); simpl; [intuition discriminate |].
  destruct (v <=? 0)%float; simpl; intuition discriminate.
Qed.

Lemma messages_of_z_enum_status (msg : string) (v : option FormDataEntryValue) :
  messages_of (z_enum_status msg v) = None <-> status_in_enum v = true.
Proof.
  destruct v as [[s | f] |]; simpl; try (split; discriminate).
  destruct (String.eqb s "pending" || String.eqb s "paid"); simpl;
    split; congruence.
Qed.

Lemma status_in_enum_spec (v : option FormDataEntryValue) :
  status_in_enum v = true
  <-> (v = Some (EntryString "pending") \/ v = Some (EntryString "paid")).
Proof.
  destruct v as [[s | f] |]; simpl.
  - rewrite orb_true_iff, !String.eqb_eq. intuition congruence.
  - intuition discriminate.
  - intuition discriminate.
Qed.

Lemma messages_of_single {A} (r : ParseResult A) (msgs : list string) :
  messages_of r = Some msgs -> length msgs = 1%nat.
Proof. destruct r; simpl; [discriminate |]. now intros [= <-]. Qed.

Lemma safeParse_Failure_some_field (input : RawInvoice) (issues : list ZodIssue) :
  safeParse input = Failure issues ->
  messages_of (z_string "Please select a customer." (raw_customerId input)) <> None
  \/ messages_of (z_coerce_number_gt0 "Please enter an amount greater than $0."
                    (raw_amount input)) <> None
  \/ messages_of (z_enum_status "Please select an invoice status."
                    (raw_status input)) <> None.
Proof.
  unfold safeParse.
  destruct (z_string _ (raw_customerId input));
    destruct (z_coerce_number_gt0 _ (raw_amount input));
    destruct (z_enum_status _ (raw_status input));
    simpl; intros Hparse; try discriminate Hparse;
    (left; discriminate) || (right; left; discriminate)
    || (right; right; discriminate).
Qed.

(** X4: a form whose customerId is a string, whose amount converts to a
    number above 0 and whose status is 'pending' or 'paid' always passes
    validation: both form actions send their statement, with exactly these
    values.  There is no upper bound on the amount. *)
Theorem valid_form_reaches_sql (h : Host) (formData : FormData)
  (customer status : string) :
  fromEntries formData "customerId" = Some (EntryString customer) ->
  (0 <? Number h (fromEntries formData "amount"))%float = true ->
  fromEntries formData "status" = Some (EntryString status) ->
  status = "pending" \/ status = "paid" ->
  (forall prevState,
      sql_events (fst (createInvoice h prevState formData))
      = [(insert_strings,
          [SqlString customer;
           SqlNumber (Number h (fromEntries formData "amount") * 100)%float;
           SqlString status;
           SqlString (split_head "T" (toISOString_now h))])])
  /\ (forall id,
      sql_events (fst (updateInvoice h id formData))
      = [(update_strings,
          [SqlString customer;
           SqlNumber (Number h (fromEntries formData "amount") * 100)%float;
           SqlString status; SqlString id])]).
Proof.
  intros Hcustomer Hamount Hstatus Henum.
  assert (Hparse : safeParse (rawInvoice h formData)
                   = Success {| customerId := customer;
                                amount := Number h (fromEntries formData "amount");
                                status := status |}).
  { apply safeParse_Success. simpl. repeat split; auto.
    apply amount_and_status_ok_spec. split; [exact Hamount |].
    rewrite Hstatus. destruct Henum as [-> | ->]; auto. }
  split.
  - intros prevState. rewrite createInvoice_sql_events, Hparse. reflexivity.
  - intros id. rewrite updateInvoice_sql_events, Hparse. reflexivity.
Qed.

Lemma valid_form_reaches_sql_witness :
  sql_events (fst (createInvoice (constant_number_host infinity) empty_State
                     sample_form))
  = [(insert_strings,
      [SqlString "c-42"; SqlNumber infinity; SqlString "paid";
       SqlString "2024-05-17"])].
Proof.
  apply (proj1 (valid_form_reaches_sql (constant_number_host infinity)
                  sample_form "c-42" "paid"
                  eq_refl eq_refl eq_refl (or_intror eq_refl))
           empty_State).
Defined.

(** X5: a form in which customerId, amount or status is missing or is an
    uploaded file never passes validation: both form actions answer with
    their 'Missing Fields' message and send no statement. *)
Theorem missing_or_file_entry_fails_validation (h : Host) (formData : FormData)
  (key : string) :
  In key schema_keys ->
  (fromEntries formData key = None
   \/ exists name, fromEntries formData key = Some (EntryFile name)) ->
  exists issues,
    safeParse (rawInvoice h formData) = Failure issues
    /\ (forall prevState,
        createInvoice h prevState formData
        = ([EvSafeParse (rawInvoice h formData)],
           Fulfilled
             (Some {| errors := Some (flatten_fieldErrors issues);
                      message := Some "Missing Fields. Failed to create Invoice." |})))
    /\ (forall id,
        updateInvoice h id formData
        = ([EvSafeParse (rawInvoice h formData)],
           Fulfilled
             (Some {| errors := Some (flatten_fieldErrors issues);
                      message := Some "Missing Fields. Failed to Update Invoice." |}))).
Proof.
  intros Hkey Hbad.
  destruct (safeParse (rawInvoice h formData)) as [d | issues] eqn:Hparse.
  - exfalso. apply safeParse_Success in Hparse.
    destruct Hparse as (Hc & Ha & Hs & Hok). simpl in Hc, Ha, Hs.
    apply amount_and_status_ok_spec in Hok. destruct Hok as [Hgt _].
    destruct Hkey as [<- | [<- | [<- | []]]].
    + destruct Hbad as [Hnone | [name Hfile]]; congruence.
    + destruct Hbad as [Hnone | [name Hfile]].
      * rewrite Hnone in Hgt. discriminate Hgt.
      * rewrite Hfile in Hgt. discriminate Hgt.
    + destruct Hbad as [Hnone | [name Hfile]]; congruence.
  - exists issues. split; [reflexivity |]. split.
    + intros prevState. now apply createInvoice_Failure.
    + intros id. now apply updateInvoice_Failure.
Qed.

Lemma missing_or_file_entry_fails_validation_witness :
  exists issues,
    safeParse (rawInvoice quiet_host form_without_status) = Failure issues
    /\ (forall prevState,
        createInvoice quiet_host prevState form_without_status
        = ([EvSafeParse (rawInvoice quiet_host form_without_status)],
           Fulfilled
             (Some {| errors := Some (flatten_fieldErrors issues);
                      message := Some "Missing Fields. Failed to create Invoice." |})))
    /\ (forall id,
        updateInvoice quiet_host id form_without_status
        = ([EvSafeParse (rawInvoice quiet_host form_without_status)],
           Fulfilled
             (Some {| errors := Some (flatten_fieldErrors issues);
                      message := Some "Missing Fields. Failed to Update Invoice." |}))).
Proof.
  apply (missing_or_file_entry_fails_validation quiet_host form_without_status
           "status").
  - right. right. left. reflexivity.
  - left. reflexivity.
Defined.

(** X6: after a failed validation a field has an errors entry exactly when
    that field is invalid (customerId is not a string, the amount is not
    above 0, the status is not 'pending' or 'paid'); every entry holds a
    single message, and at least one field has an entry. *)
Theorem field_errors_mark_the_invalid_fields (h : Host) (formData : FormData)
  (issues : list ZodIssue) :
  safeParse (rawInvoice h formData) = Failure issues ->
  (customerId_errors (flatten_fieldErrors issues) = None
   <-> exists s, fromEntries formData "customerId" = Some (EntryString s))
  /\ (amount_errors (flatten_fieldErrors issues) = None
      <-> (0 <? Number h (fromEntries formData "amount"))%float = true)
  /\ (status_errors (flatten_fieldErrors issues) = None
      <-> (fromEntries formData "status" = Some (EntryString "pending")
           \/ fromEntries formData "status" = Some (EntryString "paid")))
  /\ (forall msgs,
      In (Some msgs)
        [customerId_errors (flatten_fieldErrors issues);
         amount_errors (flatten_fieldErrors issues);
         status_errors (flatten_fieldErrors issues)] ->
      length msgs = 1%nat)
  /\ (customerId_errors (flatten_fieldErrors issues) <> None
      \/ amount_errors (flatten_fieldErrors issues) <> None
      \/ status_errors (flatten_fieldErrors issues) <> None).
Proof.
  intros Hparse.
  rewrite (flatten_after_failure _ _ Hparse). cbn [customerId_errors
    amount_errors status_errors].
  split; [apply messages_of_z_string |].
  split; [apply messages_of_z_coerce_number_gt0 |].
  split.
  { rewrite messages_of_z_enum_status. apply status_in_enum_spec. }
  split.
  - intros msgs [Hin | [Hin | [Hin | []]]];
      eapply messages_of_single; exact Hin.
  - exact (safeParse_Failure_some_field _ _ Hparse).
Qed.

Lemma field_errors_mark_the_invalid_fields_witness :
  amount_errors
    (flatten_fieldErrors
       [{| issue_path := "amount";
           issue_message := "Please enter an amount greater than $0." |}])
  <> None.
Proof.
  pose proof (field_errors_mark_the_invalid_fields quiet_host free_form
                [{| issue_path := "amount";
                    issue_message := "Please enter an amount greater than $0." |}]
                eq_refl) as (_ & Hamount & _).
  intros Hnone. apply Hamount in Hnone. discriminate Hnone.
Defined.

(** X7: the messages of a failed validation.  An amount that is a number
    not above 0 is reported as 'Please enter an amount greater than $0.';
    a file as customerId as 'Please select a customer.' and a file as
    status as 'Please select an invoice status.'; a missing customerId or
    status is reported as 'Required', not with the field's own message. *)
Theorem validation_messages (h : Host) (formData : FormData)
  (issues : list ZodIssue) :
  safeParse (rawInvoice h formData) = Failure issues ->
  ((Number h (fromEntries formData "amount") <=? 0)%float = true ->
   amount_errors (flatten_fieldErrors issues)
   = Some ["Please enter an amount greater than $0."])
  /\ (forall name,
      fromEntries formData "customerId" = Some (EntryFile name) ->
      customerId_errors (flatten_fieldErrors issues)
      = Some ["Please select a customer."])
  /\ (forall name,
      fromEntries formData "status" = Some (EntryFile name) ->
      status_errors (flatten_fieldErrors issues)
      = Some ["Please select an invoice status."])
  /\ (fromEntries formData "customerId" = None ->
      customerId_errors (flatten_fieldErrors issues) = Some ["Required"])
  /\ (fromEntries formData "status" = None ->
      status_errors (flatten_fieldErrors issues) = Some ["Required"]).
Proof.
  intros Hparse. rewrite (flatten_after_failure _ _ Hparse).
  cbn [customerId_errors amount_errors status_errors rawInvoice
         raw_customerId raw_amount raw_status].
  split; [| split; [| split; [| split]]].
  - intros Hle. unfold z_coerce_number_gt0.
    rewrite (leb_zero_not_nan _ Hle), Hle. reflexivity.
  - intros name ->. reflexivity.
  - intros name ->. reflexivity.
  - intros ->. reflexivity.
  - intros ->. reflexivity.
Qed.

Lemma validation_messages_witness :
  amount_errors
    (flatten_fieldErrors
       [{| issue_path := "amount";
           issue_message := "Please enter an amount greater than $0." |}])
  = Some ["Please enter an amount greater than $0."].
Proof.
  apply (proj1 (validation_messages quiet_host free_form
                  [{| issue_path := "amount";
                      issue_message := "Please enter an amount greater than $0." |}]
                  eq_refl)).
  reflexivity.
Defined.

(** ** Results of the mutation functions *)

Lemma after_sql_outcome (h : Host) (label msg : string) (strings : list string)
  (values : list SqlValue) :
  (snd (after_sql h label msg strings values) = Fulfilled None
   /\ existsb is_console_error (fst (after_sql h label msg strings values)) = false
   /\ sql h strings values = None
   /\ revalidatePath h "/dashboard/invoices" = None
   /\ redirect h "/dashboard/invoices" = None)
  \/ (snd (after_sql h label msg strings values) = Fulfilled (database_error msg)
      /\ existsb is_console_error (fst (after_sql h label msg strings values)) = true
      /\ exists e,
          sql h strings values = Some e
          \/ (sql h strings values = None
              /\ revalidatePath h "/dashboard/invoices" = Some e)
          \/ (sql h strings values = None
              /\ revalidatePath h "/dashboard/invoices" = None
              /\ redirect h "/dashboard/invoices" = Some e)).
Proof.
  unfold after_sql.
  destruct (sql h strings values) as [e |]; [right; eauto 7 |].
  destruct (revalidatePath h _) as [e |]; [right; eauto 7 |].
  destruct (redirect h _) as [e |]; [right; eauto 9 | left; auto].
Qed.

(** X8: the promise of a mutation function is always fulfilled, never
    rejected: whatever the statement, the cache invalidation or the
    redirect throws is caught. *)
Theorem mutations_never_reject (h : Host) :
  (forall prevState formData,
      exists v, snd (createInvoice h prevState formData) = Fulfilled v)
  /\ (forall id formData,
      exists v, snd (updateInvoice h id formData) = Fulfilled v)
  /\ (forall id, exists v, snd (deleteInvoice h id) = Fulfilled v).
Proof.
  split; [| split].
  - intros prevState formData.
    destruct (safeParse (rawInvoice h formData)) as [d | issues] eqn:Hparse.
    + rewrite (createInvoice_Success h prevState formData d Hparse). cbn [snd].
      destruct (after_sql_outcome h "Create Invoice Error:"
                  "Database Error: Failed to create Invoice."
                  insert_strings (insert_values h d)) as [(-> & _) | (-> & _)];
        eexists; reflexivity.
    + rewrite (createInvoice_Failure h prevState formData issues Hparse).
      eexists; reflexivity.
  - intros id formData.
    destruct (safeParse (rawInvoice h formData)) as [d | issues] eqn:Hparse.
    + rewrite (updateInvoice_Success h id formData d Hparse). cbn [snd].
      destruct (after_sql_outcome h "Update Invoice Error:"
                  "Database Error: Failed to Update Invoice."
                  update_strings (update_values id d)) as [(-> & _) | (-> & _)];
        eexists; reflexivity.
    + rewrite (updateInvoice_Failure h id formData issues Hparse).
      eexists; reflexivity.
  - intros id. rewrite deleteInvoice_run.
    destruct (sql h _ _); [eexists; reflexivity |].
    destruct (revalidatePath h _); eexists; reflexivity.
Qed.

(** X9: on a validated form, [createInvoice] and [updateInvoice] are
    fulfilled with undefined exactly when the statement, revalidatePath and
    redirect all returned, and with their database-error message exactly
    when one of the three threw, also when the statement itself succeeded.
    [deleteInvoice] answers 'Deleted Invoice' exactly when its statement and
    revalidatePath returned. *)
Theorem outcome_follows_the_three_calls (h : Host) :
  (forall prevState formData d,
      safeParse (rawInvoice h formData) = Success d ->
      (snd (createInvoice h prevState formData) = Fulfilled None
       <-> (sql h insert_strings (insert_values h d) = None
            /\ revalidatePath h "/dashboard/invoices" = None
            /\ redirect h "/dashboard/invoices" = None))
      /\ (snd (createInvoice h prevState formData)
          = Fulfilled (database_error "Database Error: Failed to create Invoice.")
          <-> ~ (sql h insert_strings (insert_values h d) = None
                 /\ revalidatePath h "/dashboard/invoices" = None
                 /\ redirect h "/dashboard/invoices" = None)))
  /\ (forall id formData d,
      safeParse (rawInvoice h formData) = Success d ->
      (snd (updateInvoice h id formData) = Fulfilled None
       <-> (sql h update_strings (update_values id d) = None
            /\ revalidatePath h "/dashboard/invoices" = None
            /\ redirect h "/dashboard/invoices" = None))
      /\ (snd (updateInvoice h id formData)
          = Fulfilled (database_error "Database Error: Failed to Update Invoice.")
          <-> ~ (sql h update_strings (update_values id d) = None
                 /\ revalidatePath h "/dashboard/invoices" = None
                 /\ redirect h "/dashboard/invoices" = None)))
  /\ (forall id,
      (snd (deleteInvoice h id)
       = Fulfilled (Some {| errors := None; message := Some "Deleted Invoice" |})
       <-> (sql h delete_strings [SqlString id] = None
            /\ revalidatePath h "/dashboard/invoices" = None))
      /\ (snd (deleteInvoice h id)
          = Fulfilled (database_error "Database Error: Failed to Delete Invoice.")
          <-> ~ (sql h delete_strings [SqlString id] = None
                 /\ revalidatePath h "/dashboard/invoices" = None))).
Proof.
  unfold database_error. split; [| split].
  - intros prevState formData d Hparse.
    rewrite (createInvoice_Success h prevState formData d Hparse). cbn [snd].
    unfold after_sql, database_error.
    destruct (sql h _ _); [cbn [snd]; intuition congruence |].
    destruct (revalidatePath h _); [cbn [snd]; intuition congruence |].
    destruct (redirect h _); cbn [snd]; intuition congruence.
  - intros id formData d Hparse.
    rewrite (updateInvoice_Success h id formData d Hparse). cbn [snd].
    unfold after_sql, database_error.
    destruct (sql h _ _); [cbn [snd]; intuition congruence |].
    destruct (revalidatePath h _); [cbn [snd]; intuition congruence |].
    destruct (redirect h _); cbn [snd]; intuition congruence.
  - intros id. rewrite deleteInvoice_run. unfold database_error.
    destruct (sql h _ _); [cbn [snd]; intuition congruence |].
    destruct (revalidatePath h _); cbn [snd]; intuition congruence.
Qed.

Lemma outcome_follows_the_three_calls_witness :
  snd (createInvoice redirect_throws_host empty_State sample_form)
  = Fulfilled (database_error "Database Error: Failed to create Invoice.")
  /\ snd (updateInvoice quiet_host "inv-7" sample_form) = Fulfilled None.
Proof.
  split.
  - destruct (outcome_follows_the_three_calls redirect_throws_host)
      as (Hc & _ & _).
    apply (Hc empty_State sample_form
             {| customerId := "c-42"; amount := 250%float; status := "paid" |}
             eq_refl).
    intros (_ & _ & Hredirect). discriminate Hredirect.
  - destruct (outcome_follows_the_three_calls quiet_host) as (_ & Hu & _).
    apply (Hu "inv-7" sample_form
             {| customerId := "c-42"; amount := 250%float; status := "paid" |}
             eq_refl).
    repeat split.
Defined.

(** X10: console.error is called exactly when a mutation function answers
    with its database-error message; a validation failure is not logged. *)
Theorem console_error_iff_database_error (h : Host) :
  (forall prevState formData,
      existsb is_console_error (fst (createInvoice h prevState formData)) = true
      <-> snd (createInvoice h prevState formData)
          = Fulfilled (database_error "Database Error: Failed to create Invoice."))
  /\ (forall id formData,
      existsb is_console_error (fst (updateInvoice h id formData)) = true
      <-> snd (updateInvoice h id formData)
          = Fulfilled (database_error "Database Error: Failed to Update Invoice."))
  /\ (forall id,
      existsb is_console_error (fst (deleteInvoice h id)) = true
      <-> snd (deleteInvoice h id)
          = Fulfilled (database_error "Database Error: Failed to Delete Invoice.")).
Proof.
  split; [| split].
  - intros prevState formData.
    destruct (safeParse (rawInvoice h formData)) as [d | issues] eqn:Hparse.
    + rewrite (createInvoice_Success h prevState formData d Hparse).
      cbn [fst snd existsb is_console_error orb].
      destruct (after_sql_outcome h "Create Invoice Error:"
                  "Database Error: Failed to create Invoice."
                  insert_strings (insert_values h d))
        as [(-> & -> & _) | (-> & -> & _)];
        unfold database_error; intuition congruence.
    + rewrite (createInvoice_Failure h prevState formData issues Hparse).
      unfold database_error. cbn. intuition congruence.
  - intros id formData.
    destruct (safeParse (rawInvoice h formData)) as [d | issues] eqn:Hparse.
    + rewrite (updateInvoice_Success h id formData d Hparse).
      cbn [fst snd existsb is_console_error orb].
      destruct (after_sql_outcome h "Update Invoice Error:"
                  "Database Error: Failed to Update Invoice."
                  update_strings (update_values id d))
        as [(-> & -> & _) | (-> & -> & _)];
        unfold database_error; intuition congruence.
    + rewrite (updateInvoice_Failure h id formData issues Hparse).
      unfold database_error. cbn. intuition congruence.
  - intros id. rewrite deleteInvoice_run. unfold database_error.
    destruct (sql h _ _); [cbn; intuition congruence |].
    destruct (revalidatePath h _); cbn; intuition congruence.
Qed.

(** ** Statements *)

Lemma authenticate_sql_events (h : Host) (prevState : option string)
  (formData : FormData) :
  sql_events (fst (authenticate h prevState formData)) = [].
Proof.
  unfold authenticate. unfold_statements.
  destruct (signIn h _ _) as [[type | name] |]; [| reflexivity | reflexivity].
  destruct (String.eqb type "CredentialsSignin"); reflexivity.
Qed.

(** X11: a call of an exported function sends at most one SQL statement:
    [authenticate] none, a form action one exactly when validation
    succeeded, [deleteInvoice] always one. *)
Theorem at_most_one_statement_per_call (h : Host) (c : Call) :
  (length (sql_events (trace_of h c)) <= 1)%nat
  /\ (forall prevState formData,
      c = CallAuthenticate prevState formData ->
      length (sql_events (trace_of h c)) = 0%nat)
  /\ (forall prevState formData,
      c = CallCreateInvoice prevState formData ->
      (length (sql_events (trace_of h c)) = 1%nat
       <-> exists d, safeParse (rawInvoice h formData) = Success d))
  /\ (forall id formData,
      c = CallUpdateInvoice id formData ->
      (length (sql_events (trace_of h c)) = 1%nat
       <-> exists d, safeParse (rawInvoice h formData) = Success d))
  /\ (forall id,
      c = CallDeleteInvoice id ->
      length (sql_events (trace_of h c)) = 1%nat).
Proof.
  split; [| split; [| split; [| split]]].
  - destruct c as [prevState formData | prevState formData | id formData | id];
      cbn [trace_of].
    + rewrite authenticate_sql_events. auto.
    + rewrite createInvoice_sql_events. destruct (safeParse _); simpl; auto.
    + rewrite updateInvoice_sql_events. destruct (safeParse _); simpl; auto.
    + rewrite deleteInvoice_sql_events. simpl. auto.
  - intros prevState formData ->. cbn [trace_of].
    now rewrite authenticate_sql_events.
  - intros prevState formData ->. cbn [trace_of].
    rewrite createInvoice_sql_events.
    destruct (safeParse _) as [d | issues]; simpl; split; eauto; try discriminate.
    intros [d Hd]. discriminate Hd.
  - intros id formData ->. cbn [trace_of].
    rewrite updateInvoice_sql_events.
    destruct (safeParse _) as [d | issues]; simpl; split; eauto; try discriminate.
    intros [d Hd]. discriminate Hd.
  - intros id ->. cbn [trace_of]. now rewrite deleteInvoice_sql_events.
Qed.

Lemma at_most_one_statement_per_call_witness :
  length (sql_events (trace_of quiet_host (CallDeleteInvoice "inv-7"))) = 1%nat
  /\ exists d, safeParse (rawInvoice quiet_host sample_form) = Success d.
Proof.
  split.
  - apply (proj2 (proj2 (proj2 (proj2 (at_most_one_statement_per_call quiet_host
             (CallDeleteInvoice "inv-7"))))) "inv-7").
    reflexivity.
  - apply (proj1 (proj2 (proj2 (at_most_one_statement_per_call quiet_host
             (CallCreateInvoice empty_State sample_form))))
             empty_State sample_form eq_refl).
    reflexivity.
Defined.

(** X12: every statement an exported function sends is a well-formed
    tagged-template call: the template has one more text chunk than there
    are values (four values for INSERT and UPDATE, one for DELETE). *)
Theorem statements_are_well_formed (h : Host) (c : Call) :
  Forall well_formed_statement (sql_events (trace_of h c))
  /\ Forall
       (fun stmt =>
          (statement_verb (fst stmt) = "INSERT" /\ length (snd stmt) = 4%nat)
          \/ (statement_verb (fst stmt) = "UPDATE" /\ length (snd stmt) = 4%nat)
          \/ (statement_verb (fst stmt) = "DELETE" /\ length (snd stmt) = 1%nat))
       (sql_events (trace_of h c)).
Proof.
  destruct c as [prevState formData | prevState formData | id formData | id];
    cbn [trace_of].
  - rewrite authenticate_sql_events. split; constructor.
  - rewrite createInvoice_sql_events.
    destruct (safeParse _) as [d | issues]; [| split; constructor].
    split; (constructor; [| constructor]).
    + reflexivity.
    + left. split; reflexivity.
  - rewrite updateInvoice_sql_events.
    destruct (safeParse _) as [d | issues]; [| split; constructor].
    split; (constructor; [| constructor]).
    + reflexivity.
    + right. left. split; reflexivity.
  - rewrite deleteInvoice_sql_events.
    split; (constructor; [| constructor]).
    + reflexivity.
    + right. right. split; reflexivity.
Qed.



(** ** The invoice date *)

Lemma split_head_before_sep (sep : ascii) (day rest : string) :
  has_char sep day = false ->
  split_head sep (day ++ String sep rest)%string = day.
Proof.
  induction day as [| c day IH]; simpl.
  - intros _. now rewrite Ascii.eqb_refl.
  - intros Hno. apply orb_false_iff in Hno. destruct Hno as [Hc Hday].
    rewrite Hc, (IH Hday). reflexivity.
Qed.

Lemma split_head_has_no_sep (sep : ascii) (s : string) :
  has_char sep (split_head sep s) = false.
Proof.
  induction s as [| c s IH]; simpl; [reflexivity |].
  destruct (Ascii.eqb c sep) eqn:Hc; simpl; [reflexivity |].
  now rewrite Hc, IH.
Qed.

(** X14: the date of a new invoice is the part of the clock's ISO
    timestamp before its first 'T': for a timestamp day ++ 'T' ++ time
    whose day part holds no 'T', the INSERT statement carries day as its
    fourth value.  In no case does the date value hold a 'T'. *)
Theorem insert_date_is_the_day_part (h : Host) (day time : string)
  (formData : FormData) (d : InvoiceData) :
  toISOString_now h = (day ++ String "T" time)%string ->
  has_char "T" day = false ->
  safeParse (rawInvoice h formData) = Success d ->
  forall prevState,
    sql_events (fst (createInvoice h prevState formData))
    = [(insert_strings,
        [SqlString (customerId d); SqlNumber (amount d * 100)%float;
         SqlString (status d); SqlString day])]
    /\ has_char "T" (split_head "T" (toISOString_now h)) = false.
Proof.
  intros Hnow Hday Hparse prevState. split.
  - rewrite createInvoice_sql_events, Hparse. unfold insert_values.
    rewrite Hnow, (split_head_before_sep "T" day time Hday). reflexivity.
  - apply split_head_has_no_sep.
Qed.

Lemma insert_date_is_the_day_part_witness :
  sql_events (fst (createInvoice quiet_host empty_State sample_form))
  = [(insert_strings,
      [SqlString "c-42"; SqlNumber (250 * 100)%float; SqlString "paid";
       SqlString "2024-05-17"])]
  /\ has_char "T" (split_head "T" (toISOString_now quiet_host)) = false.
Proof.
  apply (insert_date_is_the_day_part quiet_host "2024-05-17" "09:30:00.000Z"
           sample_form
           {| customerId := "c-42"; amount := 250%float; status := "paid" |}
           eq_refl eq_refl eq_refl empty_State).
Defined.

(** ** Order of the calls *)

(** X15: redirect is called only by a form action, and only after the
    validation, the statement and the cache invalidation, in this order,
    with the statement and the invalidation having returned; revalidatePath
    and redirect are never called with a path other than
    '/dashboard/invoices'. *)
Theorem redirect_only_after_success (h : Host) (c : Call) :
  (existsb is_redirect (trace_of h c) = true ->
   exists input strings values rest,
     trace_of h c
     = EvSafeParse input :: EvSql strings values
         :: EvRevalidatePath "/dashboard/invoices"
         :: EvRedirect "/dashboard/invoices" :: rest
     /\ sql h strings values = None
     /\ revalidatePath h "/dashboard/invoices" = None)
  /\ (forall path,
      In (EvRevalidatePath path) (trace_of h c)
      \/ In (EvRedirect path) (trace_of h c) ->
      path = "/dashboard/invoices").
Proof.
  assert (Hafter : forall label msg strings values input,
             let t := EvSafeParse input :: EvSql strings values
                        :: fst (after_sql h label msg strings values) in
             (existsb is_redirect t = true ->
              exists input' strings' values' rest,
                t = EvSafeParse input' :: EvSql strings' values'
                      :: EvRevalidatePath "/dashboard/invoices"
                      :: EvRedirect "/dashboard/invoices" :: rest
                /\ sql h strings' values' = None
                /\ revalidatePath h "/dashboard/invoices" = None)
             /\ (forall path,
                 In (EvRevalidatePath path) t \/ In (EvRedirect path) t ->
                 path = "/dashboard/invoices")).
  { intros label msg strings values input. unfold after_sql. cbv zeta.
    destruct (sql h strings values) as [e |] eqn:Hsql.
    - split; [discriminate |]. cbn.
      intros path [[H | [H | [H | []]]] | [H | [H | [H | []]]]]; discriminate.
    - destruct (revalidatePath h _) as [e |] eqn:Hreval.
      + split; [discriminate |]. cbn.
        intros path [[H | [H | [H | [H | []]]]] | [H | [H | [H | [H | []]]]]];
          try discriminate.
        now injection H as <-.
      + destruct (redirect h _) as [e |]; cbn [fst].
        * split; [intros _; do 4 eexists; split; [reflexivity | auto] |].
          cbn.
          intros path [[H | [H | [H | [H | [H | []]]]]]
                      | [H | [H | [H | [H | [H | []]]]]]];
            try discriminate; now injection H as <-.
        * split; [intros _; do 4 eexists; split; [reflexivity | auto] |].
          cbn.
          intros path [[H | [H | [H | [H | []]]]] | [H | [H | [H | [H | []]]]]];
            try discriminate; now injection H as <-. }
  destruct c as [prevState formData | prevState formData | id formData | id];
    cbn [trace_of].
  - unfold authenticate. unfold_statements.
    destruct (signIn h _ _) as [[type | name] |];
      [destruct (String.eqb type "CredentialsSignin") | |];
      (split; [discriminate |]); cbn;
      intros path [[H | []] | [H | []]]; discriminate.
  - destruct (safeParse (rawInvoice h formData)) as [d | issues] eqn:Hparse.
    + rewrite (createInvoice_Success h prevState formData d Hparse). cbn [fst].
      apply Hafter.
    + rewrite (createInvoice_Failure h prevState formData issues Hparse).
      split; [discriminate |]. cbn.
      intros path [[H | []] | [H | []]]; discriminate.
  - destruct (safeParse (rawInvoice h formData)) as [d | issues] eqn:Hparse.
    + rewrite (updateInvoice_Success h id formData d Hparse). cbn [fst].
      apply Hafter.
    + rewrite (updateInvoice_Failure h id formData issues Hparse).
      split; [discriminate |]. cbn.
      intros path [[H | []] | [H | []]]; discriminate.
  - rewrite deleteInvoice_run.
    destruct (sql h _ _); [| destruct (revalidatePath h _)];
      (split; [discriminate |]); cbn.
    + intros path [[H | [H | []]] | [H | [H | []]]]; discriminate.
    + intros path [[H | [H | [H | []]]] | [H | [H | [H | []]]]];
        try discriminate; now injection H as <-.
    + intros path [[H | [H | []]] | [H | [H | []]]];
        try discriminate; now injection H as <-.
Qed.

Lemma redirect_only_after_success_witness :
  exists input strings values rest,
    trace_of quiet_host (CallCreateInvoice empty_State sample_form)
    = EvSafeParse input :: EvSql strings values
        :: EvRevalidatePath "/dashboard/invoices"
        :: EvRedirect "/dashboard/invoices" :: rest
    /\ sql quiet_host strings values = None
    /\ revalidatePath quiet_host "/dashboard/invoices" = None.
Proof.
  apply (proj1 (redirect_only_after_success quiet_host
                  (CallCreateInvoice empty_State sample_form))).
  reflexivity.
Defined.

(** ** The sign-in action *)

(** X16: [authenticate] never passes details of the failure on: a string
    result is one of its two fixed messages, whatever the [AuthError]; and
    it is rejected only with the very error signIn threw, which is then no
    [AuthError]. *)
Theorem authenticate_result_is_closed (h : Host) (prevState : option string)
  (formData : FormData) :
  (forall msg,
      snd (authenticate h prevState formData) = Fulfilled (Some msg) ->
      msg = "Invalid credentials. Please try again."
      \/ msg = "Something went wrong. Please try again later.")
  /\ (forall e,
      snd (authenticate h prevState formData) = Rejected e ->
      signIn h "credentials" formData = Some e
      /\ exists name, e = OtherError name).
Proof.
  unfold authenticate. unfold_statements.
  destruct (signIn h "credentials" formData) as [[type | name] |].
  - destruct (String.eqb type "CredentialsSignin"); cbn; split.
    + intros msg [= <-]. auto.
    + discriminate.
    + intros msg [= <-]. auto.
    + discriminate.
  - cbn. split; [discriminate |]. intros e [= <-]. eauto.
  - cbn. split; discriminate.
Qed.

Lemma authenticate_result_is_closed_witness :
  signIn (signIn_throws (OtherError "NEXT_REDIRECT")) "credentials" []
  = Some (OtherError "NEXT_REDIRECT")
  /\ exists name, OtherError "NEXT_REDIRECT" = OtherError name.
Proof.
  apply (proj2 (authenticate_result_is_closed
                  (signIn_throws (OtherError "NEXT_REDIRECT")) None [])
           (OtherError "NEXT_REDIRECT")).
  reflexivity.
Defined.
